(** * ATCNP2: the diet problem, formulated for [scipy.optimize.linprog]

    A shallow embedding of [ATCNP2.py]: the CSV loader
    [carregar_dados_csv] and the formulate / solve / report function
    [resolver_problema_dieta_scipy].

    Modelling choices.
    - Numbers are IEEE binary64 values, as Python's [float] and pandas'
      [float64]: Rocq's primitive [float].  Integer-valued columns are
      taken at their [float64] value.
    - Text is held as its UTF-8 bytes.
    - A cell of a table is either text or a number ([cell]).
    - A column is found by its label, the first one when a label occurs
      more than once; the statements that depend on it ask for distinct
      labels.
    - Python exceptions are values of [exn]; code that may raise returns
      [result].
    - The libraries' own algorithms are parameters of the development:
      the LP solver [linprog], the text-to-number parser used by
      [pd.to_numeric], the [format] of a float with a fixed number of
      decimals, and the rendering [DataFrame.to_string]. *)

From Stdlib Require Import String Ascii List ZArith Bool Arith Lia Sorted Permutation.
From Stdlib Require Import DecimalString Floats.
Import ListNotations.
Open Scope string_scope.

(** ** Exceptions and the error monad *)

Inductive exn : Type :=
| FileNotFoundError (msg : string)
| KeyError (msg : string)
| ValueError (msg : string)
| TypeError (msg : string)
| IndexError (msg : string)
| OtherError (msg : string).

Inductive result (A : Type) : Type :=
| Ok (a : A)
| Raise (e : exn).

Arguments Ok {A} a.
Arguments Raise {A} e.

Definition bind {A B : Type} (m : result A) (k : A -> result B) : result B :=
  match m with
  | Ok a => k a
  | Raise e => Raise e
  end.

Notation "x <- m ;; k" := (bind m (fun x => k))
  (at level 61, m at next level, right associativity).

Fixpoint mapM {A B : Type} (f : A -> result B) (l : list A) : result (list B) :=
  match l with
  | [] => Ok []
  | a :: l' => b <- f a ;; bs <- mapM f l' ;; Ok (b :: bs)
  end.

Definition is_KeyError (e : exn) : bool :=
  match e with KeyError _ => true | _ => false end.

Definition is_ValueError (e : exn) : bool :=
  match e with ValueError _ => true | _ => false end.

(** ** Cells, series, data frames and arrays *)

Inductive cell : Type :=
| CStr (s : string)
| CNum (f : float).

(** Python's [==] on two cells: text against text, number against number
    (IEEE equality, so NaN differs from itself); text never equals a
    number. *)
Definition cell_eqb (a b : cell) : bool :=
  match a, b with
  | CStr s, CStr t => String.eqb s t
  | CNum f, CNum g => PrimFloat.eqb f g
  | _, _ => false
  end.

(** A column of a frame. *)
Abbreviation Series := (list cell) (only parsing).

(** A frame: the length of its index and its labelled columns, in order.
    Column labels are text. *)
Record DataFrame : Type := mkFrame {
  nrows : nat;
  cols : list (string * Series)
}.

Definition columns (df : DataFrame) : list string := map (@fst string Series) (cols df).

(** Every column is as long as the index. *)
Definition wf_frame (df : DataFrame) : Prop :=
  Forall (fun c => length (snd c) = nrows df) (cols df).

(** A two-dimensional array with its shape. *)
Record ndarray (X : Type) : Type := mkArray {
  shape0 : nat;
  shape1 : nat;
  linhas : list (list X)
}.

Arguments mkArray {X} shape0 shape1 linhas.
Arguments shape0 {X} n.
Arguments shape1 {X} n.
Arguments linhas {X} n.

Definition nan_cell : cell := CNum PrimFloat.nan.

Definition aspas_duplas : ascii := ascii_of_nat 34.

Definition barra_invertida : ascii := ascii_of_nat 92.

Definition hex_digit (n : nat) : ascii :=
  nth n ["0"; "1"; "2"; "3"; "4"; "5"; "6"; "7";
         "8"; "9"; "a"; "b"; "c"; "d"; "e"; "f"]%char "0"%char.

Definition contem (a : ascii) (s : string) : bool :=
  existsb (Ascii.eqb a) (list_ascii_of_string s).

(** One character inside [repr], between quotes [q]: the quote and the
    backslash are escaped, tab, line feed and carriage return have their
    letters, the other control characters of ASCII their two hexadecimal
    digits. *)
Definition escapar (q a : ascii) : string :=
  let n := nat_of_ascii a in
  if Ascii.eqb a q || Ascii.eqb a barra_invertida
  then String barra_invertida (String a EmptyString)
  else if Nat.eqb n 9 then String barra_invertida "t"
  else if Nat.eqb n 10 then String barra_invertida "n"
  else if Nat.eqb n 13 then String barra_invertida "r"
  else if Nat.ltb n 32 || Nat.eqb n 127
  then String barra_invertida
         (String "x" (String (hex_digit (n / 16))
                        (String (hex_digit (n mod 16)) EmptyString)))
  else String a EmptyString.

(** [repr] of a text: between double quotes when the text has an
    apostrophe and no double quote, between single quotes otherwise.  It
    is Python's on ASCII text; the bytes of characters beyond ASCII are
    kept, as Python keeps the printable ones. *)
Definition repr (s : string) : string :=
  let q := if contem "'" s && negb (contem aspas_duplas s)
           then aspas_duplas else "'"%char in
  String q (String.concat "" (map (escapar q) (list_ascii_of_string s))
            ++ String q EmptyString).

(** The text has ASCII characters only. *)
Definition so_ascii (s : string) : bool :=
  forallb (fun a => Nat.ltb (nat_of_ascii a) 128) (list_ascii_of_string s).

Fixpoint join (sep : string) (l : list string) : string :=
  match l with
  | [] => ""
  | [s] => s
  | s :: l' => s ++ sep ++ join sep l'
  end.

Definition repr_list (l : list string) : string :=
  "[" ++ join ", " (map repr l) ++ "]".

Fixpoint find_col (k : string) (cs : list (string * Series)) : option Series :=
  match cs with
  | [] => None
  | (n, s) :: cs' => if String.eqb n k then Some s else find_col k cs'
  end.

(** [df[k]] for one label. *)
Definition getitem (df : DataFrame) (k : string) : result Series :=
  match find_col k (cols df) with
  | Some s => Ok s
  | None => Raise (KeyError (repr k))
  end.

Definition label_text (c : cell) : option string :=
  match c with CStr s => Some s | CNum _ => None end.

Definition find_label (df : DataFrame) (c : cell) : option (string * Series) :=
  match label_text c with
  | Some k => match find_col k (cols df) with
              | Some s => Some (k, s)
              | None => None
              end
  | None => None
  end.

(** How a missing label is named in the message of the [KeyError]; the
    digits of a numeric label are not reproduced. *)
Definition label_show (c : cell) : string :=
  match c with CStr s => repr s | CNum _ => "<float>" end.

(** [df[labels]] for a list of labels: every label must be a column. *)
Definition getitem_list (df : DataFrame) (labels : list cell) : result DataFrame :=
  match filter (fun c => match find_label df c with Some _ => false | None => true end) labels with
  | [] =>
      Ok (mkFrame (nrows df)
            (flat_map (fun c => match find_label df c with
                                | Some kc => [kc]
                                | None => []
                                end) labels))
  | missing =>
      Raise (KeyError ("[" ++ join ", " (map label_show missing) ++ "] not in index"))
  end.

(** The columns [df[labels]] selects, when no label is missing. *)
Definition selecionadas (df : DataFrame) (labels : list cell) : list (string * Series) :=
  flat_map (fun c => match find_label df c with
                     | Some kc => [kc]
                     | None => []
                     end) labels.

(** [df.to_numpy()]: one line per index entry, one entry per column. *)
Definition to_numpy (df : DataFrame) : ndarray cell :=
  mkArray (nrows df) (length (cols df))
    (map (fun j => map (fun c => nth j (snd c) nan_cell) (cols df))
         (seq 0 (nrows df))).

(** [a.T] *)
Definition transpose (a : ndarray cell) : ndarray cell :=
  mkArray (shape1 a) (shape0 a)
    (map (fun i => map (fun r => nth i r nan_cell) (linhas a))
         (seq 0 (shape1 a))).

(** Unary minus on one entry: numbers are negated, text has no unary
    minus. *)
Definition neg_cell (c : cell) : result float :=
  match c with
  | CNum f => Ok (PrimFloat.opp f)
  | CStr _ => Raise (TypeError "bad operand type for unary -: 'str'")
  end.

Definition neg_vector (v : list cell) : result (list float) := mapM neg_cell v.

Definition neg_array (a : ndarray cell) : result (ndarray float) :=
  ls <- mapM (mapM neg_cell) (linhas a) ;;
  Ok (mkArray (shape0 a) (shape1 a) ls).

(** ** The linear program handed to the solver *)

Record LP : Type := mkLP {
  lp_c : list cell;
  lp_A_ub : ndarray float;
  lp_b_ub : list float
}.

(** Lines 48 to 58 of [resolver_problema_dieta_scipy], in the order the
    source evaluates them. *)
Definition formular (dados_nutrientes dados_alimentos : DataFrame)
  : result (LP * list cell * list cell) :=
  c <- getitem dados_alimentos "preco" ;;
  nomes_nutrientes <- getitem dados_nutrientes "nutrientes" ;;
  nomes_alimentos <- getitem dados_alimentos "ingrediente" ;;
  minimos <- getitem dados_nutrientes "minimo" ;;
  b_ub <- neg_vector minimos ;;
  selecao <- getitem_list dados_alimentos nomes_nutrientes ;;
  A_ub <- neg_array (transpose (to_numpy selecao)) ;;
  Ok (mkLP c A_ub b_ub, nomes_nutrientes, nomes_alimentos).

(** ** The solver's answer and the report *)

Record OptimizeResult : Type := mkResult {
  success : bool;
  status : Z;
  message : string;
  x : list float;
  fun_ : float
}.

(** One entry of [melhor_solucao]. *)
Record linha_solucao : Type := mkLinha {
  Ingrediente : cell;
  Quantidade_Necessaria : string;
  Unidade_de_Compra : cell
}.

(** The library functions the program calls and does not define. *)
Record Bibliotecas : Type := mkBibliotecas {
  (* scipy.optimize.linprog(c, A_ub=..., b_ub=..., method='highs') *)
  linprog : list cell -> ndarray float -> list float -> result OptimizeResult;
  (* the parse of one text cell by pd.to_numeric *)
  to_numeric_text : string -> option float;
  (* format(v, ".<n>f") *)
  format_f : nat -> float -> string;
  (* str(v) of a float *)
  str_float : float -> string;
  (* pd.DataFrame(entries).to_string(index=False) *)
  frame_to_string : list linha_solucao -> string
}.

Definition nl : string := String (ascii_of_nat 10) EmptyString.

(** The threshold [1e-6] of the source, as the binary64 value Python
    reads it. *)
Definition tol : float := 0x1.0c6f7a0b5ed8dp-20%float.

Definition menos_um : float := (-1)%float.

(** Number of code points of UTF-8 text: the bytes that do not continue
    a sequence. *)
Fixpoint len_utf8 (s : string) : nat :=
  match s with
  | EmptyString => 0
  | String a s' =>
      let n := nat_of_ascii a in
      if Nat.leb 128 n && Nat.ltb n 192 then len_utf8 s' else S (len_utf8 s')
  end.

Fixpoint espacos (n : nat) : string :=
  match n with
  | 0 => ""
  | S n' => " " ++ espacos n'
  end.

(** [format(s, "<15")] *)
Definition ljust15 (s : string) : string := s ++ espacos (15 - len_utf8 s).

Definition str_Z (z : Z) : string :=
  DecimalString.NilZero.string_of_int (Z.to_int z).

(** [np.dot] of two vectors of equal length, accumulated from the left. *)
Definition dot (u v : list float) : float :=
  fold_left (fun acc ab => PrimFloat.add acc (PrimFloat.mul (fst ab) (snd ab)))
            (combine u v) PrimFloat.zero.

(** [a * k], entry by entry. *)
Definition scale_array (a : ndarray float) (k : float) : ndarray float :=
  mkArray (shape0 a) (shape1 a)
          (map (map (fun e => PrimFloat.mul e k)) (linhas a)).

Definition scale_vector (v : list float) (k : float) : list float :=
  map (fun e => PrimFloat.mul e k) v.

(** [np.dot(a, v)] of a matrix and a vector. *)
Definition matvec (a : ndarray float) (v : list float) : result (list float) :=
  if Nat.eqb (shape1 a) (length v)
  then Ok (map (fun r => dot r v) (linhas a))
  else Raise (ValueError "shapes not aligned").

(** [mask] selects the entries of [s]. *)
Fixpoint select (mask : list bool) (s : Series) : Series :=
  match mask, s with
  | b :: mask', c :: s' => if b then c :: select mask' s' else select mask' s'
  | _, _ => []
  end.

(** [df.loc[df['ingrediente'] == nome, 'quantidade'].iloc[0]] *)
Definition unidade_de (dados_alimentos : DataFrame) (nome : cell) : result cell :=
  ingredientes <- getitem dados_alimentos "ingrediente" ;;
  quantidades <- getitem dados_alimentos "quantidade" ;;
  match select (map (fun c => cell_eqb c nome) ingredientes) quantidades with
  | u :: _ => Ok u
  | [] => Raise (IndexError "single positional indexer is out-of-bounds")
  end.

Definition item {A : Type} (l : list A) (i : nat) : result A :=
  match nth_error l i with
  | Some a => Ok a
  | None => Raise (IndexError "index out of range")
  end.

(** [consumido[i] >= minimo[i] - 1e-6] *)
Definition dentro_da_tolerancia (consumido_i minimo_i : float) : bool :=
  PrimFloat.leb (PrimFloat.sub minimo_i tol) consumido_i.

Definition atendido (consumido_i minimo_i : float) : string :=
  if dentro_da_tolerancia consumido_i minimo_i then "OK" else "FALHA".

(** One line of the nutrient check. *)
Record linha_nutriente : Type := mkNutriente {
  nut_nome : cell;
  nut_consumido : float;
  nut_minimo : float;
  nut_atendido : string
}.

Section Relatorio.

Context (bib : Bibliotecas).

Definition str_cell (c : cell) : string :=
  match c with
  | CStr s => s
  | CNum f => str_float bib f
  end.

(** The loop of lines 70 to 79, from index [i] on. *)
Fixpoint melhor_solucao_desde (dados_alimentos : DataFrame)
    (nomes_alimentos : list cell) (i : nat) (xs : list float)
  : result (list linha_solucao) :=
  match xs with
  | [] => Ok []
  | valor :: xs' =>
      if PrimFloat.ltb tol valor then
        nome_alimento <- item nomes_alimentos i ;;
        unidade <- unidade_de dados_alimentos nome_alimento ;;
        resto <- melhor_solucao_desde dados_alimentos nomes_alimentos (S i) xs' ;;
        Ok (mkLinha nome_alimento (format_f bib 6 valor) unidade :: resto)
      else melhor_solucao_desde dados_alimentos nomes_alimentos (S i) xs'
  end.

Definition melhor_solucao (dados_alimentos : DataFrame)
    (nomes_alimentos : list cell) (xs : list float) : result (list linha_solucao) :=
  melhor_solucao_desde dados_alimentos nomes_alimentos 0 xs.

(** Line 85: [np.dot(A_ub * -1, resultado.x)]. *)
Definition consumido (A_ub : ndarray float) (xs : list float) : result (list float) :=
  matvec (scale_array A_ub menos_um) xs.

(** Line 86: [b_ub * -1]. *)
Definition minimo (b_ub : list float) : list float := scale_vector b_ub menos_um.

(** The loop of lines 89 to 91, from index [i] on. *)
Fixpoint verificacao_desde (cons mins : list float) (i : nat) (nomes : list cell)
  : result (list linha_nutriente) :=
  match nomes with
  | [] => Ok []
  | nome_nutriente :: nomes' =>
      ci <- item cons i ;;
      mi <- item mins i ;;
      resto <- verificacao_desde cons mins (S i) nomes' ;;
      Ok (mkNutriente nome_nutriente ci mi (atendido ci mi) :: resto)
  end.

Definition verificacao (cons mins : list float) (nomes : list cell)
  : result (list linha_nutriente) :=
  verificacao_desde cons mins 0 nomes.

Definition texto_nutriente (l : linha_nutriente) : string :=
  "- " ++ ljust15 (str_cell (nut_nome l))
       ++ ": Consumido=" ++ format_f bib 4 (nut_consumido l)
       ++ ", Mínimo=" ++ format_f bib 1 (nut_minimo l)
       ++ " (" ++ nut_atendido l ++ ")" ++ nl.

Definition msg_inviavel : string :=
  nl ++ "O PROBLEMA É INVIÁVEL. Não há combinação de alimentos que satisfaça todas as restrições mínimas de nutrientes.".

Definition msg_sem_otimo (r : OptimizeResult) : string :=
  nl ++ "O problema não possui solução ótima. Status do solver: "
     ++ str_Z (status r) ++ nl ++ message r.

(** What an optimal answer is turned into before it is rendered. *)
Record relatorio_otimo : Type := mkRelatorio {
  rel_custo : float;
  rel_compras : list linha_solucao;
  rel_nutrientes : list linha_nutriente
}.

Definition montar_relatorio (dados_alimentos : DataFrame) (lp : LP)
    (nomes_nutrientes nomes_alimentos : list cell) (r : OptimizeResult)
  : result relatorio_otimo :=
  compras <- melhor_solucao dados_alimentos nomes_alimentos (x r) ;;
  cons <- consumido (lp_A_ub lp) (x r) ;;
  linhas_nut <- verificacao cons (minimo (lp_b_ub lp)) nomes_nutrientes ;;
  Ok (mkRelatorio (fun_ r) compras linhas_nut).

Definition texto_relatorio (rel : relatorio_otimo) : string :=
  nl ++ "--- SOLUÇÃO ÓTIMA ENCONTRADA (usando SciPy) ---" ++ nl
     ++ "Custo Mínimo Total: R$ " ++ format_f bib 4 (rel_custo rel) ++ nl
     ++ nl ++ "Quantidades de Alimentos a Comprar (Unidades de Compra):" ++ nl
     ++ frame_to_string bib (rel_compras rel)
     ++ nl ++ nl ++ "Verificação de Nutrientes (Consumido vs Mínimo):" ++ nl
     ++ String.concat "" (map texto_nutriente (rel_nutrientes rel)).

(** Lines 64 to 99: what is printed for the solver's answer [r]. *)
Definition relatar (dados_alimentos : DataFrame) (lp : LP)
    (nomes_nutrientes nomes_alimentos : list cell) (r : OptimizeResult)
  : result string :=
  if success r then
    rel <- montar_relatorio dados_alimentos lp nomes_nutrientes nomes_alimentos r ;;
    Ok (texto_relatorio rel ++ nl)
  else if Z.eqb (status r) 2 then Ok (msg_inviavel ++ nl)
  else Ok (msg_sem_otimo r ++ nl).

(** The whole function: the text written to standard output, or the
    exception that leaves it. *)
Definition resolver_problema_dieta_scipy
    (dados_nutrientes dados_alimentos : DataFrame) : result string :=
  f <- formular dados_nutrientes dados_alimentos ;;
  let '(lp, nomes_nutrientes, nomes_alimentos) := f in
  resultado <- linprog bib (lp_c lp) (lp_A_ub lp) (lp_b_ub lp) ;;
  relatar dados_alimentos lp nomes_nutrientes nomes_alimentos resultado.

End Relatorio.

(** ** The loader and its file system *)

Inductive encoding : Type := utf_8 | latin1.

(** A file is known by what [pd.read_csv] makes of it under each of the
    two encodings the loader tries. *)
Record arquivo : Type := mkArquivo {
  lido_utf_8 : result DataFrame;
  lido_latin1 : result DataFrame
}.

Definition sistema_de_arquivos := string -> option arquivo.

(** What the loader does to the file system, in order. *)
Inductive evento : Type :=
| EvExists (caminho : string)
| EvReadCsv (caminho : string) (enc : encoding).

Definition is_read (e : evento) : bool :=
  match e with EvReadCsv _ _ => true | EvExists _ => false end.

(** Computations that may raise and that log their file accesses. *)
Definition IO (A : Type) : Type := list evento -> result A * list evento.

Definition ret {A : Type} (a : A) : IO A := fun t => (Ok a, t).

Definition raise {A : Type} (e : exn) : IO A := fun t => (Raise e, t).

Definition bindIO {A B : Type} (m : IO A) (k : A -> IO B) : IO B :=
  fun t => match m t with
           | (Ok a, t') => k a t'
           | (Raise e, t') => (Raise e, t')
           end.

Definition lift {A : Type} (r : result A) : IO A := fun t => (r, t).

(** [try: m except Exception: h] *)
Definition try_except {A : Type} (m : IO A) (h : IO A) : IO A :=
  fun t => match m t with
           | (Ok a, t') => (Ok a, t')
           | (Raise _, t') => h t'
           end.

Notation "x <~ m ;; k" := (bindIO m (fun x => k))
  (at level 61, m at next level, right associativity).

Definition os_path_exists (fs : sistema_de_arquivos) (p : string) : IO bool :=
  fun t => (Ok (match fs p with Some _ => true | None => false end),
            (t ++ [EvExists p])%list).

Definition read_csv (fs : sistema_de_arquivos) (p : string) (enc : encoding)
  : IO DataFrame :=
  fun t =>
    (match fs p with
     | Some f => match enc with utf_8 => lido_utf_8 f | latin1 => lido_latin1 f end
     | None => Raise (FileNotFoundError ("No such file or directory: " ++ repr p))
     end,
     (t ++ [EvReadCsv p enc])%list).

(** Text is held as its UTF-8 bytes.  The characters [str.strip] removes
    are those for which [str.isspace] holds. *)

(** White space of one byte: U+0009 to U+000D, U+001C to U+0020. *)
Definition is_space (a : ascii) : bool :=
  let n := nat_of_ascii a in
  (Nat.leb 9 n && Nat.leb n 13) || (Nat.leb 28 n && Nat.leb n 32).

(** White space of two bytes: U+0085 and U+00A0. *)
Definition is_space2 (a b : ascii) : bool :=
  Nat.eqb (nat_of_ascii a) 194
  && (Nat.eqb (nat_of_ascii b) 133 || Nat.eqb (nat_of_ascii b) 160).

(** White space of three bytes: U+1680, U+2000 to U+200A, U+2028, U+2029,
    U+202F, U+205F and U+3000. *)
Definition is_space3 (a b c : ascii) : bool :=
  let x := nat_of_ascii a in
  let y := nat_of_ascii b in
  let z := nat_of_ascii c in
  (Nat.eqb x 225 && Nat.eqb y 154 && Nat.eqb z 128)
  || (Nat.eqb x 226 && Nat.eqb y 128
      && ((Nat.leb 128 z && Nat.leb z 138)
          || Nat.eqb z 168 || Nat.eqb z 169 || Nat.eqb z 175))
  || (Nat.eqb x 226 && Nat.eqb y 129 && Nat.eqb z 159)
  || (Nat.eqb x 227 && Nat.eqb y 128 && Nat.eqb z 128).

(** The bytes after a leading white space character, if there is one. *)
Definition espaco_inicial (l : list ascii) : option (list ascii) :=
  match l with
  | a :: r =>
      if is_space a then Some r
      else match r with
           | b :: r' =>
               if is_space2 a b then Some r'
               else match r' with
                    | c :: r'' => if is_space3 a b c then Some r'' else None
                    | [] => None
                    end
           | [] => None
           end
  | [] => None
  end.

(** The same at the end of the text, read on the reversed bytes. *)
Definition espaco_final (l : list ascii) : option (list ascii) :=
  match l with
  | a :: r =>
      if is_space a then Some r
      else match r with
           | b :: r' =>
               if is_space2 b a then Some r'
               else match r' with
                    | c :: r'' => if is_space3 c b a then Some r'' else None
                    | [] => None
                    end
           | [] => None
           end
  | [] => None
  end.

(** [f] applied as long as it removes something, at most [n] times. *)
Fixpoint tirar (f : list ascii -> option (list ascii)) (n : nat) (l : list ascii)
  : list ascii :=
  match n with
  | 0 => l
  | S n' => match f l with
            | Some r => tirar f n' r
            | None => l
            end
  end.

Definition lstrip_bytes (l : list ascii) : list ascii :=
  tirar espaco_inicial (length l) l.

Definition rstrip_bytes (l : list ascii) : list ascii :=
  rev (tirar espaco_final (length l) (rev l)).

(** [f] removes a non-empty prefix whenever it removes something. *)
Definition encurta (f : list ascii -> option (list ascii)) : Prop :=
  forall l r, f l = Some r -> exists p, p <> [] /\ l = (p ++ r)%list.

(** [s.strip()] *)
Definition strip (s : string) : string :=
  string_of_list_ascii (rstrip_bytes (lstrip_bytes (list_ascii_of_string s))).

Definition colunas_chave : list string := ["ingrediente"; "quantidade"].

Definition in_list (k : string) (l : list string) : bool :=
  existsb (String.eqb k) l.

Definition msg_arquivos (nome_nutrientes nome_alimentos : string) : string :=
  "Um ou ambos os arquivos CSV ('" ++ nome_nutrientes ++ "' e '" ++ nome_alimentos
  ++ "') não foram encontrados. Certifique-se de que estão na mesma pasta do script.".

Definition msg_coluna (col : string) (lidas : list string) : string :=
  "A coluna '" ++ col
  ++ "' não foi encontrada nos dados. Por favor, verifique se seu arquivo CSV está correto. Colunas lidas: "
  ++ repr_list lidas.

Section Carregador.

Context (bib : Bibliotecas).

(** [pd.to_numeric(..., errors='raise')] on one cell. *)
Definition to_numeric_cell (c : cell) : result cell :=
  match c with
  | CNum f => Ok (CNum f)
  | CStr s =>
      match to_numeric_text bib s with
      | Some f => Ok (CNum f)
      | None => Raise (ValueError ("Unable to parse string " ++ repr s))
      end
  end.

Definition to_numeric (s : Series) : result Series := mapM to_numeric_cell s.

(** Line 25: [columns.str.strip()]. *)
Definition strip_columns (df : DataFrame) : DataFrame :=
  mkFrame (nrows df) (map (fun c => (strip (fst c), snd c)) (cols df)).

(** Lines 30 to 32. *)
Fixpoint verificar_colunas (chaves : list string) (df : DataFrame) : result unit :=
  match chaves with
  | [] => Ok tt
  | col :: chaves' =>
      if in_list col (columns df)
      then verificar_colunas chaves' df
      else Raise (KeyError (msg_coluna col (columns df)))
  end.

(** Lines 35 and 36: every column outside [colunas_chave] goes through
    [pd.to_numeric], in column order. *)
Definition converter_coluna (c : string * Series) : result (string * Series) :=
  if in_list (fst c) colunas_chave then Ok c
  else s <- to_numeric (snd c) ;; Ok (fst c, s).

Definition converter_numericas (df : DataFrame) : result DataFrame :=
  cs <- mapM converter_coluna (cols df) ;;
  Ok (mkFrame (nrows df) cs).

(** Lines 24 to 36, on the food table as read. *)
Definition tratar_alimentos (lido : DataFrame) : result DataFrame :=
  let dados_alimentos := strip_columns lido in
  _ <- verificar_colunas colunas_chave dados_alimentos ;;
  converter_numericas dados_alimentos.

(** Lines 17 to 22. *)
Definition ler_alimentos (fs : sistema_de_arquivos) (nome_alimentos : string)
  : IO DataFrame :=
  try_except (read_csv fs nome_alimentos utf_8)
             (read_csv fs nome_alimentos latin1).

(** Line 10: [not exists(a) or not exists(b)], with Python's
    short-circuit [or]. *)
Definition falta_arquivo (fs : sistema_de_arquivos)
    (nome_nutrientes nome_alimentos : string) : IO bool :=
  e1 <~ os_path_exists fs nome_nutrientes ;;
  if negb e1 then ret true
  else e2 <~ os_path_exists fs nome_alimentos ;; ret (negb e2).

Definition carregar_dados_csv (fs : sistema_de_arquivos)
    (nome_nutrientes nome_alimentos : string) : IO (DataFrame * DataFrame) :=
  falta <~ falta_arquivo fs nome_nutrientes nome_alimentos ;;
  if falta : bool
  then raise (FileNotFoundError (msg_arquivos nome_nutrientes nome_alimentos))
  else
    dados_nutrientes <~ read_csv fs nome_nutrientes utf_8 ;;
    lido <~ ler_alimentos fs nome_alimentos ;;
    dados_alimentos <~ lift (tratar_alimentos lido) ;;
    ret (dados_nutrientes, dados_alimentos).

End Carregador.

(** ** Reading tables: what the claims speak about *)

Definition entrada {X : Type} (a : ndarray X) (i j : nat) : option X :=
  match nth_error (linhas a) i with
  | Some r => nth_error r j
  | None => None
  end.

Definition is_num (c : cell) : bool :=
  match c with CNum _ => true | CStr _ => false end.

Definition numerica (s : Series) : bool := forallb is_num s.

(** The content of food [j] for the nutrient labelled [nome]: the number
    in line [j] of that column of the food table. *)
Definition conteudo (dados_alimentos : DataFrame) (nome : cell) (j : nat)
  : option float :=
  match find_label dados_alimentos nome with
  | Some (_, col) =>
      match nth_error col j with
      | Some (CNum v) => Some v
      | _ => None
      end
  | None => None
  end.

Definition wf_frameb (df : DataFrame) : bool :=
  forallb (fun c => Nat.eqb (length (snd c)) (nrows df)) (cols df).

Definition coluna_numerica (df : DataFrame) (nome : cell) : bool :=
  match find_label df nome with
  | Some (_, col) => numerica col
  | None => false
  end.

(** No label occurs twice. *)
Fixpoint sem_repetidos (l : list string) : bool :=
  match l with
  | [] => true
  | k :: l' => negb (existsb (String.eqb k) l') && sem_repetidos l'
  end.

(** Valid input of the formulation: in each table no label occurs twice,
    the columns the function reads are there, the minimums are numbers,
    and every nutrient named by the nutrient table is a numeric column of
    the food table. *)
Definition tabelas_validas (dados_nutrientes dados_alimentos : DataFrame) : bool :=
  wf_frameb dados_alimentos
  && sem_repetidos (columns dados_nutrientes)
  && sem_repetidos (columns dados_alimentos)
  && match find_col "preco" (cols dados_alimentos),
           find_col "ingrediente" (cols dados_alimentos),
           find_col "nutrientes" (cols dados_nutrientes),
           find_col "minimo" (cols dados_nutrientes) with
     | Some _, Some _, Some nomes, Some minimos =>
         numerica minimos && forallb (coluna_numerica dados_alimentos) nomes
     | _, _, _, _ => false
     end.

(** ** Concrete tables and a recorded solver answer, used in examples *)

Module Exemplo.

Definition nutrientes : DataFrame :=
  mkFrame 1 [("nutrientes", [CStr "Protein"]); ("minimo", [CNum 50%float])].

Definition alimentos : DataFrame :=
  mkFrame 2 [("ingrediente", [CStr "Rice"; CStr "Beans"]);
             ("quantidade", [CStr "kg"; CStr "saco"]);
             ("preco", [CNum 2%float; CNum 3%float]);
             ("Protein", [CNum 25%float; CNum 100%float])].

(** The answer of the solver on these tables: buy half a unit of beans. *)
Definition resposta : OptimizeResult :=
  mkResult true 0 "Optimization terminated successfully."
           [0%float; 0.5%float] 1.5%float.

Definition inviavel : OptimizeResult :=
  mkResult false 2 "The problem is infeasible." [] PrimFloat.nan.

Definition ilimitado : OptimizeResult :=
  mkResult false 3 "The problem is unbounded." [] PrimFloat.nan.

Definition digito (c : ascii) : option Z :=
  let n := nat_of_ascii c in
  if Nat.leb 48 n && Nat.leb n 57 then Some (Z.of_nat (n - 48)) else None.

Fixpoint inteiro (s : string) (acc : Z) : option Z :=
  match s with
  | EmptyString => Some acc
  | String c s' =>
      match digito c with
      | Some d => inteiro s' (10 * acc + d)
      | None => None
      end
  end.

(** A parser of unsigned decimal integers, standing for the parser of
    [pd.to_numeric] on the texts of the examples. *)
Definition parse (s : string) : option float :=
  match s with
  | EmptyString => None
  | _ => match inteiro s 0 with
         | Some z => Some (PrimFloat.of_uint63 (Uint63.of_Z z))
         | None => None
         end
  end.

Definition bib_com (r : OptimizeResult) : Bibliotecas :=
  mkBibliotecas (fun _ _ _ => Ok r) parse
                (fun _ _ => "#") (fun _ => "#")
                (fun l => String.concat nl (map (fun e => Quantidade_Necessaria e) l)).

Definition bib : Bibliotecas := bib_com resposta.

Definition fs_vazio : sistema_de_arquivos := fun _ => None.

Definition alimentos_lidos : DataFrame :=
  mkFrame 2 [(" ingrediente", [CStr "Rice"; CStr "Beans"]);
             ("quantidade ", [CStr "kg"; CStr "saco"]);
             ("preco", [CNum 2%float; CNum 3%float]);
             ("Protein", [CStr "25"; CStr "100"])].

Definition alimentos_ruins : DataFrame :=
  mkFrame 2 [("ingrediente", [CStr "Rice"; CStr "Beans"]);
             ("quantidade", [CStr "kg"; CStr "saco"]);
             ("preco", [CNum 2%float; CStr "abc"]);
             ("Protein", [CNum 25%float; CNum 100%float])].

(** A food table in which a name repeats, and an answer that buys both
    lines of that name. *)
Definition alimentos_repetidos : DataFrame :=
  mkFrame 3 [("ingrediente", [CStr "Rice"; CStr "Beans"; CStr "Rice"]);
             ("quantidade", [CStr "kg"; CStr "saco"; CStr "lata"]);
             ("preco", [CNum 2%float; CNum 3%float; CNum 4%float]);
             ("Protein", [CNum 25%float; CNum 100%float; CNum 30%float])].

Definition resposta_repetidos : OptimizeResult :=
  mkResult true 0 "Optimization terminated successfully."
           [1%float; 0%float; 2%float] 10%float.

Definition lp_repetidos : LP :=
  mkLP [CNum 2%float; CNum 3%float; CNum 4%float]
       (mkArray 1 3 [[(-25)%float; (-100)%float; (-30)%float]]) [(-50)%float].

Definition lp : LP :=
  mkLP [CNum 2%float; CNum 3%float]
       (mkArray 1 2 [[(-25)%float; (-100)%float]]) [(-50)%float].

(** A nutrient table labelled as the specification names its columns. *)
Definition nutrientes_minimum : DataFrame :=
  mkFrame 1 [("nutrients", [CStr "Protein"]); ("minimum", [CNum 50%float])].

Definition fs_com (lido : DataFrame) : sistema_de_arquivos :=
  fun p =>
    if String.eqb p "nutrientes.csv" then Some (mkArquivo (Ok nutrientes) (Ok nutrientes))
    else if String.eqb p "ingrediente.csv" then Some (mkArquivo (Ok lido) (Ok lido))
    else None.

End Exemplo.

(** ** Reading the report: what the claims speak about *)

(** Food [j] is bought: its quantity in the solution vector [xs] is above
    the threshold, with Python's [>]. *)
Definition comprado (xs : list float) (j : nat) : Prop :=
  exists valor, nth_error xs j = Some valor /\ PrimFloat.ltb tol valor = true.



(** Entry [e] of [melhor_solucao] is the one the loop appends for food
    [j]. *)
Definition compra_de (bib : Bibliotecas) (dados_alimentos : DataFrame)
    (nomes_alimentos : list cell) (xs : list float) (j : nat) (e : linha_solucao)
  : Prop :=
  exists valor nome unidade,
    nth_error xs j = Some valor /\
    nth_error nomes_alimentos j = Some nome /\
    unidade_de dados_alimentos nome = Ok unidade /\
    e = mkLinha nome (format_f bib 6 valor) unidade.

(** ** Reading the loader: what the claims speak about *)

(** What lines 17 to 22 make of the food file: the table read as UTF-8,
    or, when that raises, whatever the second read as Latin-1 gives. *)
Definition alimentos_lidos_de (f : arquivo) : result DataFrame :=
  match lido_utf_8 f with
  | Ok df => Ok df
  | Raise _ => lido_latin1 f
  end.

(** The file accesses lines 17 to 22 log for a food file [f]. *)
Definition leituras_de (nome_alimentos : string) (f : arquivo) : list evento :=
  match lido_utf_8 f with
  | Ok _ => [EvReadCsv nome_alimentos utf_8]
  | Raise _ => [EvReadCsv nome_alimentos utf_8; EvReadCsv nome_alimentos latin1]
  end.

(** A column the loader must convert: its label, once stripped, is not one
    of [colunas_chave]. *)
Definition a_converter (c : string * Series) : bool :=
  negb (in_list (strip (fst c)) colunas_chave).

(** A text cell that [pd.to_numeric] cannot parse. *)
Definition nao_numerico (bib : Bibliotecas) (c : cell) : bool :=
  match c with
  | CStr s => match to_numeric_text bib s with Some _ => false | None => true end
  | CNum _ => false
  end.

(** ** Comparing binary64 values *)

Definition sf_zero (v : spec_float) : bool :=
  match v with S754_zero _ => true | _ => false end.

(** Two values are the same number: identical, or zeros of either sign. *)
Definition sf_equiv (v w : spec_float) : Prop :=
  v = w \/ (sf_zero v = true /\ sf_zero w = true).

Definition mesmo_valor (a b : float) : Prop := sf_equiv (Prim2SF a) (Prim2SF b).

(** [a == b] in Python, or both are NaN. *)
Definition mesmo_numero (a b : float) : bool :=
  PrimFloat.eqb a b || (PrimFloat.is_nan a && PrimFloat.is_nan b).

(** [a] is neither NaN nor an infinity. *)
Definition finito (a : float) : bool :=
  PrimFloat.ltb (PrimFloat.abs a) PrimFloat.infinity.

(** [-1.0], as the specification of binary64 sees it. *)
Definition sf_menos_um : spec_float := S754_finite true 4503599627370496 (-52).

(** ** The driver *)

Definition msg_critico : string :=
  nl ++ "ERRO CRÍTICO: Verifique se os arquivos CSV estão salvos na mesma pasta e se a primeira linha está correta.".

(** What the [except] branch of the driver prints for the exception [e];
    [str_exc] is Python's [str] of an exception. *)
Definition texto_erro (str_exc : exn -> string) (e : exn) : string :=
  nl ++ "Ocorreu um erro: " ++ str_exc e ++ nl ++ msg_critico ++ nl.

(** Lines 102 to 108: the text written to standard output and the file
    accesses made.  Neither function prints before it may raise, so an
    exception leaves the error text alone on the output. *)
Definition principal (str_exc : exn -> string) (bib : Bibliotecas)
    (fs : sistema_de_arquivos) : string * list evento :=
  match carregar_dados_csv bib fs "nutrientes.csv" "ingrediente.csv" [] with
  | (Ok (dados_nutrientes, dados_alimentos), t) =>
      match resolver_problema_dieta_scipy bib dados_nutrientes dados_alimentos with
      | Ok saida => (saida, t)
      | Raise e => (texto_erro str_exc e, t)
      end
  | (Raise e, t) => (texto_erro str_exc e, t)
  end.

(** ** More readings of the tables *)

Definition is_text (c : cell) : bool :=
  match c with CStr _ => true | CNum _ => false end.

(** The numbers of a column, a text cell counting as NaN. *)
Definition numeros (s : Series) : list float :=
  map (fun c => match c with CNum f => f | CStr _ => PrimFloat.nan end) s.

(** Every cell of a column to convert is a number or a text that parses. *)
Definition convertivel (bib : Bibliotecas) (c : string * Series) : bool :=
  negb (a_converter c) || forallb (fun cel => negb (nao_numerico bib cel)) (snd c).

(** ** More concrete tables and file systems *)

Module Casos.

Definition erro_utf_8 : exn := OtherError "'utf-8' codec can't decode byte 0xe7".

Definition erro_latin1 : exn := OtherError "Error tokenizing data".

Definition fs_de (fn fa : arquivo) : sistema_de_arquivos :=
  fun p =>
    if String.eqb p "nutrientes.csv" then Some fn
    else if String.eqb p "ingrediente.csv" then Some fa
    else None.

Definition arq_nutrientes : arquivo :=
  mkArquivo (Ok Exemplo.nutrientes) (Ok Exemplo.nutrientes).

(** A food file that only decodes as Latin-1. *)
Definition arq_latin1 : arquivo :=
  mkArquivo (Raise erro_utf_8) (Ok Exemplo.alimentos_lidos).

(** A food file that neither read accepts. *)
Definition arq_ilegivel : arquivo :=
  mkArquivo (Raise erro_utf_8) (Raise erro_latin1).

(** A food table without the column [quantidade], with a price that does
    not parse. *)
Definition alimentos_sem_quantidade : DataFrame :=
  mkFrame 2 [("ingrediente", [CStr "Rice"; CStr "Beans"]);
             ("preco", [CNum 2%float; CStr "abc"]);
             ("Protein", [CNum 25%float; CNum 100%float])].

(** The food table with its columns in another order. *)
Definition alimentos_permutados : DataFrame :=
  mkFrame 2 [("Protein", [CNum 25%float; CNum 100%float]);
             ("preco", [CNum 2%float; CNum 3%float]);
             ("quantidade", [CStr "kg"; CStr "saco"]);
             ("ingrediente", [CStr "Rice"; CStr "Beans"])].

(** A food table whose protein column holds a text. *)
Definition alimentos_texto : DataFrame :=
  mkFrame 2 [("ingrediente", [CStr "Rice"; CStr "Beans"]);
             ("quantidade", [CStr "kg"; CStr "saco"]);
             ("preco", [CNum 2%float; CNum 3%float]);
             ("Protein", [CNum 25%float; CStr "muito"])].

(** U+00A0, the no-break space, and U+3000, the ideographic space. *)
Definition nbsp : string := String (ascii_of_nat 194) (String (ascii_of_nat 160) "").

Definition espaco_ideografico : string :=
  String (ascii_of_nat 227) (String (ascii_of_nat 128) (String (ascii_of_nat 128) "")).

(** A food table as read from a file whose header has a no-break space
    after [quantidade] and an ideographic space before [preco]. *)
Definition alimentos_nbsp : DataFrame :=
  mkFrame 2 [("ingrediente", [CStr "Rice"; CStr "Beans"]);
             ("quantidade" ++ nbsp, [CStr "kg"; CStr "saco"]);
             (espaco_ideografico ++ "preco", [CNum 2%float; CNum 3%float]);
             ("Protein", [CStr "25"; CStr "100"])].

Definition str_exc (e : exn) : string :=
  match e with
  | FileNotFoundError m | KeyError m | ValueError m
  | TypeError m | IndexError m | OtherError m => m
  end.

End Casos.

(** ** General facts about the error monad and the frames *)

Lemma bind_Ok {A B : Type} (m : result A) (k : A -> result B) (b : B) :
  bind m k = Ok b -> exists a, m = Ok a /\ k a = Ok b.
Proof.
  destruct m as [a|e]; simpl; intros H; [exists a; auto | discriminate].
Qed.

Lemma mapM_Ok_nth {A B : Type} (f : A -> result B) (l : list A) (l' : list B) :
  mapM f l = Ok l' ->
  length l' = length l /\
  forall i a, nth_error l i = Some a ->
              exists b, f a = Ok b /\ nth_error l' i = Some b.
Proof.
  revert l'; induction l as [|a0 l IH]; simpl; intros l' H.
  - inversion H; subst; split; [reflexivity|].
    intros [|i] a Hi; discriminate.
  - apply bind_Ok in H as (b0 & Hb0 & H).
    apply bind_Ok in H as (bs & Hbs & H).
    inversion H; subst; clear H.
    destruct (IH _ Hbs) as [Hlen Hnth].
    split; [simpl; congruence|].
    intros [|i] a Hi; simpl in *.
    + inversion Hi; subst; eauto.
    + eauto.
Qed.

Lemma mapM_total {A B : Type} (f : A -> result B) (l : list A) :
  (forall a, In a l -> exists b, f a = Ok b) ->
  exists l', mapM f l = Ok l'.
Proof.
  induction l as [|a0 l IH]; simpl; intros H; [eauto|].
  destruct (H a0 (or_introl eq_refl)) as [b0 Hb0].
  destruct IH as [bs Hbs]; [intros; apply H; auto|].
  rewrite Hb0, Hbs; simpl; eauto.
Qed.

Lemma mapM_Raise_In {A B : Type} (f : A -> result B) (l : list A) (a : A) (e : exn) :
  In a l -> f a = Raise e -> exists e', mapM f l = Raise e'.
Proof.
  induction l as [|a0 l IH]; simpl; intros Hin Hf; [contradiction|].
  destruct Hin as [->|Hin].
  - rewrite Hf; simpl; eauto.
  - destruct (f a0); simpl; [|eauto].
    destruct (IH Hin Hf) as [e' ->]; simpl; eauto.
Qed.

Lemma getitem_find (df : DataFrame) (k : string) (s : Series) :
  find_col k (cols df) = Some s -> getitem df k = Ok s.
Proof. unfold getitem; intros ->; reflexivity. Qed.

Lemma find_col_In (k : string) (cs : list (string * Series)) (s : Series) :
  find_col k cs = Some s -> In (k, s) cs.
Proof.
  induction cs as [|[n c] cs IH]; simpl; [discriminate|].
  destruct (String.eqb n k) eqn:E.
  - apply String.eqb_eq in E; subst; intros H; inversion H; auto.
  - auto.
Qed.

Lemma find_label_wf (df : DataFrame) (c : cell) (k : string) (col : Series) :
  wf_frame df -> find_label df c = Some (k, col) -> length col = nrows df.
Proof.
  unfold find_label, wf_frame; intros Hwf H.
  destruct (label_text c) as [k'|]; [|discriminate].
  destruct (find_col k' (cols df)) as [s|] eqn:E; [|discriminate].
  inversion H; subst; clear H.
  apply find_col_In in E.
  rewrite Forall_forall in Hwf; exact (Hwf _ E).
Qed.

Lemma wf_frameb_wf (df : DataFrame) : wf_frameb df = true -> wf_frame df.
Proof.
  unfold wf_frameb, wf_frame; rewrite forallb_forall, Forall_forall.
  intros H c Hc; apply Nat.eqb_eq; auto.
Qed.

Lemma getitem_list_total (df : DataFrame) (labels : list cell) :
  Forall (fun c => find_label df c <> None) labels ->
  getitem_list df labels = Ok (mkFrame (nrows df) (selecionadas df labels)).
Proof.
  unfold getitem_list; intros H.
  destruct (filter _ labels) as [|m ms] eqn:E; [reflexivity|].
  assert (Hin : In m (filter (fun c => match find_label df c with
                                       | Some _ => false | None => true end) labels))
    by (rewrite E; left; reflexivity).
  apply filter_In in Hin as [Hin Hm].
  rewrite Forall_forall in H; specialize (H _ Hin).
  destruct (find_label df m); [discriminate|congruence].
Qed.

Lemma getitem_list_missing (df : DataFrame) (labels : list cell) (c : cell) :
  In c labels -> find_label df c = None ->
  exists msg, getitem_list df labels = Raise (KeyError msg).
Proof.
  unfold getitem_list; intros Hin Hnone.
  destruct (filter _ labels) as [|m ms] eqn:E; [|eauto].
  assert (Hc : In c (filter (fun c => match find_label df c with
                                      | Some _ => false | None => true end) labels)).
  { apply filter_In; split; [assumption|]. rewrite Hnone; reflexivity. }
  rewrite E in Hc; contradiction.
Qed.

Lemma selecionadas_nth (df : DataFrame) (labels : list cell) :
  Forall (fun c => find_label df c <> None) labels ->
  length (selecionadas df labels) = length labels /\
  forall i c, nth_error labels i = Some c ->
              exists kc, find_label df c = Some kc /\
                         nth_error (selecionadas df labels) i = Some kc.
Proof.
  unfold selecionadas.
  induction 1 as [|c0 l Hc0 Hl [IHlen IHnth]]; simpl.
  - split; [reflexivity|]. intros [|i] c Hi; discriminate.
  - destruct (find_label df c0) as [kc0|] eqn:E; [|congruence].
    simpl; split; [congruence|].
    intros [|i] c Hi; simpl in *.
    + inversion Hi; subst; eauto.
    + auto.
Qed.

Lemma map_nth_seq {A : Type} (d : A) (l : list A) :
  map (fun i => nth i l d) (seq 0 (length l)) = l.
Proof.
  induction l as [|a l IH]; simpl; [reflexivity|].
  f_equal. rewrite <- seq_shift, map_map. exact IH.
Qed.

(** The lines of [df.to_numpy().T] are the columns of [df], each read
    along the index. *)
Lemma transpose_to_numpy (n : nat) (sel : list (string * Series)) :
  linhas (transpose (to_numpy (mkFrame n sel))) =
  map (fun c => map (fun j => nth j (snd c) nan_cell) (seq 0 n)) sel.
Proof.
  unfold transpose, to_numpy; simpl.
  transitivity
    (map (fun c : string * Series => map (fun j => nth j (snd c) nan_cell) (seq 0 n))
         (map (fun i => nth i sel (EmptyString, [])) (seq 0 (length sel))));
    [|rewrite map_nth_seq; reflexivity].
  rewrite map_map.
  apply map_ext_in; intros i Hi.
  apply in_seq in Hi.
  rewrite map_map.
  apply map_ext; intros j.
  rewrite (nth_indep _ nan_cell
             ((fun c : string * Series => nth j (snd c) nan_cell) (EmptyString, []))).
  - apply (map_nth (fun c : string * Series => nth j (snd c) nan_cell)).
  - rewrite length_map; lia.
Qed.

Lemma nth_numerica (col : Series) (j : nat) :
  numerica col = true -> is_num (nth j col nan_cell) = true.
Proof.
  unfold numerica; rewrite forallb_forall; intros H.
  destruct (nth_in_or_default j col nan_cell) as [Hin| ->]; [auto|reflexivity].
Qed.

Lemma neg_cell_num (c : cell) :
  is_num c = true -> exists v, c = CNum v /\ neg_cell c = Ok (PrimFloat.opp v).
Proof. destruct c as [s|v]; simpl; [discriminate|eauto]. Qed.

Lemma neg_cell_Ok (c : cell) (r : float) :
  neg_cell c = Ok r -> exists v, c = CNum v /\ r = PrimFloat.opp v.
Proof. destruct c as [s|v]; simpl; intros H; inversion H; eauto. Qed.

Lemma neg_vector_total (v : Series) :
  numerica v = true -> exists b, neg_vector v = Ok b.
Proof.
  unfold numerica, neg_vector; rewrite forallb_forall; intros H.
  apply mapM_total; intros c Hc.
  destruct (neg_cell_num c (H _ Hc)) as (x0 & _ & Hx0); eauto.
Qed.

Lemma neg_vector_nth (v : Series) (b : list float) :
  neg_vector v = Ok b ->
  length b = length v /\
  forall i, i < length v ->
            exists m, nth_error v i = Some (CNum m) /\
                      nth_error b i = Some (PrimFloat.opp m).
Proof.
  unfold neg_vector; intros H.
  destruct (mapM_Ok_nth _ _ _ H) as [Hlen Hnth]; split; [assumption|].
  intros i Hi.
  destruct (nth_error v i) as [c|] eqn:E;
    [|apply nth_error_None in E; lia].
  destruct (Hnth _ _ E) as (r & Hr & Hb).
  apply neg_cell_Ok in Hr as (m & -> & ->); eauto.
Qed.

Lemma find_label_selecionadas_numerica (df : DataFrame) (labels : list cell) :
  forallb (coluna_numerica df) labels = true ->
  Forall (fun c => find_label df c <> None) labels /\
  Forall (fun kc => numerica (snd kc) = true) (selecionadas df labels).
Proof.
  unfold selecionadas.
  induction labels as [|c l IH]; simpl; [split; constructor|].
  rewrite andb_true_iff; intros [Hc Hl].
  destruct (IH Hl) as [IH1 IH2].
  unfold coluna_numerica in Hc.
  destruct (find_label df c) as [[k col]|] eqn:E; [|discriminate].
  split; constructor; simpl; auto. congruence.
Qed.

Lemma neg_array_total (n : nat) (sel : list (string * Series)) :
  Forall (fun kc => numerica (snd kc) = true) sel ->
  exists A, neg_array (transpose (to_numpy (mkFrame n sel))) = Ok A.
Proof.
  intros Hnum; unfold neg_array.
  destruct (mapM_total (mapM neg_cell)
              (linhas (transpose (to_numpy (mkFrame n sel))))) as [ls Hls].
  - rewrite transpose_to_numpy; intros r Hr.
    apply in_map_iff in Hr as (kc & <- & Hkc).
    rewrite Forall_forall in Hnum; specialize (Hnum _ Hkc).
    apply mapM_total; intros c Hc.
    apply in_map_iff in Hc as (j & Hj & _); subst c.
    destruct (neg_cell_num _ (nth_numerica _ j Hnum)) as (v & _ & Hv); eauto.
  - rewrite Hls; simpl; eauto.
Qed.

Lemma neg_array_entrada (n : nat) (sel : list (string * Series)) (A : ndarray float)
      (i j : nat) (k : string) (col : Series) :
  neg_array (transpose (to_numpy (mkFrame n sel))) = Ok A ->
  nth_error sel i = Some (k, col) -> j < n -> length col = n ->
  exists v, nth_error col j = Some (CNum v) /\
            entrada A i j = Some (PrimFloat.opp v).
Proof.
  unfold neg_array; intros H Hi Hj Hlen.
  apply bind_Ok in H as (ls & Hls & H); inversion H; subst A; clear H.
  rewrite transpose_to_numpy in Hls.
  destruct (mapM_Ok_nth _ _ _ Hls) as [_ Hnth].
  subst n.
  destruct (Hnth i (map (fun j => nth j col nan_cell) (seq 0 (length col)))) as (r & Hr & Hi').
  { rewrite nth_error_map, Hi; simpl; reflexivity. }
  destruct (mapM_Ok_nth _ _ _ Hr) as [_ Hnth'].
  destruct (Hnth' j (nth j col nan_cell)) as (b & Hb & Hj').
  { rewrite nth_error_map, (nth_error_nth' _ 0); [|rewrite length_seq; assumption].
    rewrite seq_nth by assumption; reflexivity. }
  apply neg_cell_Ok in Hb as (v & Hv & ->).
  exists v; split.
  - rewrite (nth_error_nth' _ nan_cell) by assumption. congruence.
  - unfold entrada; simpl; rewrite Hi'; exact Hj'.
Qed.

Lemma neg_array_shape (a : ndarray cell) (A : ndarray float) :
  neg_array a = Ok A ->
  shape0 A = shape0 a /\ shape1 A = shape1 a /\ length (linhas A) = length (linhas a).
Proof.
  unfold neg_array; intros H.
  apply bind_Ok in H as (ls & Hls & H); inversion H; subst; simpl.
  destruct (mapM_Ok_nth _ _ _ Hls); auto.
Qed.

Lemma neg_array_linhas (n : nat) (sel : list (string * Series)) (A : ndarray float) :
  neg_array (transpose (to_numpy (mkFrame n sel))) = Ok A ->
  shape0 A = length sel /\ shape1 A = n /\
  length (linhas A) = length sel /\
  Forall (fun r => length r = n) (linhas A).
Proof.
  intros H.
  destruct (neg_array_shape _ _ H) as (H0 & H1 & Hl).
  rewrite transpose_to_numpy, length_map in Hl.
  simpl in H0, H1; repeat split; try assumption.
  unfold neg_array in H.
  apply bind_Ok in H as (ls & Hls & H).
  rewrite transpose_to_numpy in Hls.
  inversion H; subst A; clear H; simpl in Hl |- *.
  destruct (mapM_Ok_nth _ _ _ Hls) as [Hlen Hnth].
  rewrite Forall_forall; intros r Hr.
  apply In_nth_error in Hr as [i Hi].
  assert (Hlt : i < length sel).
  { rewrite <- Hl. apply nth_error_Some. congruence. }
  destruct (nth_error sel i) as [kc|] eqn:E; [|apply nth_error_None in E; lia].
  destruct (Hnth i (map (fun j => nth j (snd kc) nan_cell) (seq 0 n))) as (b & Hb & Hi').
  { rewrite nth_error_map, E; reflexivity. }
  assert (b = r) by congruence; subst b.
  destruct (mapM_Ok_nth _ _ _ Hb) as [Hlenr _].
  rewrite Hlenr, length_map, length_seq; reflexivity.
Qed.

(** ** C1: the formulation negates the content matrix and the minimums *)

(** C1.  On valid tables the formulation succeeds, and in the program it
    hands to the solver [A_ub] has one line per nutrient (in the order of
    the nutrient table) and one column per food (in the order of the food
    table), its entry [(i, j)] being exactly the negation of the content
    of food [j] for nutrient [i]; and [b_ub] is, entry by entry, exactly
    the negation of the minimums. *)
Theorem formular_negates (dados_nutrientes dados_alimentos : DataFrame) :
  tabelas_validas dados_nutrientes dados_alimentos = true ->
  exists lp nomes_nutrientes nomes_alimentos minimos,
    formular dados_nutrientes dados_alimentos
      = Ok (lp, nomes_nutrientes, nomes_alimentos) /\
    getitem dados_nutrientes "nutrientes" = Ok nomes_nutrientes /\
    getitem dados_nutrientes "minimo" = Ok minimos /\
    shape0 (lp_A_ub lp) = length nomes_nutrientes /\
    shape1 (lp_A_ub lp) = nrows dados_alimentos /\
    length (linhas (lp_A_ub lp)) = length nomes_nutrientes /\
    Forall (fun r => length r = nrows dados_alimentos) (linhas (lp_A_ub lp)) /\
    (forall i j nome,
        nth_error nomes_nutrientes i = Some nome ->
        j < nrows dados_alimentos ->
        exists v, conteudo dados_alimentos nome j = Some v /\
                  entrada (lp_A_ub lp) i j = Some (PrimFloat.opp v)) /\
    length (lp_b_ub lp) = length minimos /\
    (forall i, i < length minimos ->
               exists m, nth_error minimos i = Some (CNum m) /\
                         nth_error (lp_b_ub lp) i = Some (PrimFloat.opp m)).
Proof.
  unfold tabelas_validas; intros H.
  apply andb_true_iff in H as [Hwf H].
  apply andb_true_iff in Hwf as [Hwf _].
  apply andb_true_iff in Hwf as [Hwf _].
  apply wf_frameb_wf in Hwf.
  destruct (find_col "preco" (cols dados_alimentos)) as [c|] eqn:Ec; [|discriminate].
  destruct (find_col "ingrediente" (cols dados_alimentos)) as [nomes_a|] eqn:Ea;
    [|discriminate].
  destruct (find_col "nutrientes" (cols dados_nutrientes)) as [nomes_n|] eqn:En;
    [|discriminate].
  destruct (find_col "minimo" (cols dados_nutrientes)) as [minimos|] eqn:Em;
    [|discriminate].
  apply andb_true_iff in H as [Hmin Hcols].
  destruct (neg_vector_total _ Hmin) as [b Hb].
  destruct (find_label_selecionadas_numerica _ _ Hcols) as [Hpres Hnum].
  destruct (neg_array_total (nrows dados_alimentos) _ Hnum) as [A HA].
  destruct (selecionadas_nth _ _ Hpres) as [Hsel_len Hsel_nth].
  destruct (neg_array_linhas _ _ _ HA) as (H0 & H1 & Hl & Hrows).
  destruct (neg_vector_nth _ _ Hb) as [Hblen Hbnth].
  exists (mkLP c A b), nomes_n, nomes_a, minimos.
  split; [|repeat split; simpl; try (apply getitem_find; assumption); try congruence].
  - unfold formular.
    rewrite (getitem_find _ _ _ Ec), (getitem_find _ _ _ En),
            (getitem_find _ _ _ Ea), (getitem_find _ _ _ Em); simpl.
    rewrite Hb; simpl.
    rewrite (getitem_list_total _ _ Hpres); simpl.
    rewrite HA; reflexivity.
  - intros i j nome Hi Hj.
    destruct (Hsel_nth _ _ Hi) as ([k col] & Hfind & Hnth).
    destruct (neg_array_entrada _ _ _ i j k col HA Hnth Hj (find_label_wf _ _ _ _ Hwf Hfind))
      as (v & Hv & Hent).
    exists v; split; [|assumption].
    unfold conteudo; rewrite Hfind, Hv; reflexivity.
  - assumption.
Qed.

Lemma formular_negates_witness :
  tabelas_validas Exemplo.nutrientes Exemplo.alimentos = true /\
  exists lp nomes_nutrientes nomes_alimentos minimos,
    formular Exemplo.nutrientes Exemplo.alimentos
      = Ok (lp, nomes_nutrientes, nomes_alimentos) /\
    getitem Exemplo.nutrientes "nutrientes" = Ok nomes_nutrientes /\
    getitem Exemplo.nutrientes "minimo" = Ok minimos /\
    shape0 (lp_A_ub lp) = length nomes_nutrientes /\
    shape1 (lp_A_ub lp) = nrows Exemplo.alimentos /\
    length (linhas (lp_A_ub lp)) = length nomes_nutrientes /\
    Forall (fun r => length r = nrows Exemplo.alimentos) (linhas (lp_A_ub lp)) /\
    (forall i j nome,
        nth_error nomes_nutrientes i = Some nome ->
        j < nrows Exemplo.alimentos ->
        exists v, conteudo Exemplo.alimentos nome j = Some v /\
                  entrada (lp_A_ub lp) i j = Some (PrimFloat.opp v)) /\
    length (lp_b_ub lp) = length minimos /\
    (forall i, i < length minimos ->
               exists m, nth_error minimos i = Some (CNum m) /\
                         nth_error (lp_b_ub lp) i = Some (PrimFloat.opp m)).
Proof.
  split; [reflexivity|].
  apply (formular_negates Exemplo.nutrientes Exemplo.alimentos); reflexivity.
Defined.

(** ** C3: a nutrient that is no column of the food table *)

(** C3.  When a name of the nutrient table is not a column of the food
    table, the formulation raises and hands no program to the solver, so
    no coefficient is ever made up for the missing nutrient; the whole
    function leaves with the same exception.  With numeric minimums the
    exception is a [KeyError]. *)
Theorem formular_missing_nutrient (bib : Bibliotecas)
    (dados_nutrientes dados_alimentos : DataFrame)
    (nomes_nutrientes : list cell) (nome : cell) :
  getitem dados_nutrientes "nutrientes" = Ok nomes_nutrientes ->
  In nome nomes_nutrientes ->
  find_label dados_alimentos nome = None ->
  exists e,
    formular dados_nutrientes dados_alimentos = Raise e /\
    resolver_problema_dieta_scipy bib dados_nutrientes dados_alimentos = Raise e /\
    ((forall minimos, getitem dados_nutrientes "minimo" = Ok minimos ->
                      numerica minimos = true) ->
     is_KeyError e = true).
Proof.
  intros Hn Hin Hnone.
  assert (H : exists e,
             formular dados_nutrientes dados_alimentos = Raise e /\
             ((forall minimos, getitem dados_nutrientes "minimo" = Ok minimos ->
                               numerica minimos = true) ->
              is_KeyError e = true)).
  { unfold formular.
    unfold getitem at 1.
    destruct (find_col "preco" (cols dados_alimentos)) as [c|];
      [simpl|eexists; split; [reflexivity|reflexivity]].
    rewrite Hn; simpl.
    unfold getitem at 1.
    destruct (find_col "ingrediente" (cols dados_alimentos)) as [na|];
      [simpl|eexists; split; [reflexivity|reflexivity]].
    destruct (getitem dados_nutrientes "minimo") as [minimos|e] eqn:Em.
    - simpl.
      destruct (neg_vector minimos) as [b|e] eqn:Eb; simpl.
      + destruct (getitem_list_missing dados_alimentos _ _ Hin Hnone) as [msg ->].
        simpl; eexists; split; reflexivity.
      + exists e; split; [reflexivity|].
        intros Hnum.
        destruct (neg_vector_total _ (Hnum _ eq_refl)) as [b Hb]; congruence.
    - simpl. exists e; split; [reflexivity|]. intros _.
      unfold getitem in Em.
      destruct (find_col "minimo" (cols dados_nutrientes)); inversion Em; reflexivity. }
  destruct H as (e & He & Hk).
  exists e; repeat split; try assumption.
  unfold resolver_problema_dieta_scipy; rewrite He; reflexivity.
Qed.

Lemma formular_missing_nutrient_witness :
  exists e,
    formular Exemplo.nutrientes
             (mkFrame 2 [("ingrediente", [CStr "Rice"; CStr "Beans"]);
                         ("quantidade", [CStr "kg"; CStr "saco"]);
                         ("preco", [CNum 2%float; CNum 3%float])]) = Raise e /\
    resolver_problema_dieta_scipy Exemplo.bib Exemplo.nutrientes
             (mkFrame 2 [("ingrediente", [CStr "Rice"; CStr "Beans"]);
                         ("quantidade", [CStr "kg"; CStr "saco"]);
                         ("preco", [CNum 2%float; CNum 3%float])]) = Raise e /\
    ((forall minimos, getitem Exemplo.nutrientes "minimo" = Ok minimos ->
                      numerica minimos = true) ->
     is_KeyError e = true).
Proof.
  apply (formular_missing_nutrient Exemplo.bib Exemplo.nutrientes _
           [CStr "Protein"] (CStr "Protein")).
  - reflexivity.
  - left; reflexivity.
  - reflexivity.
Defined.

(** Without a column "Protein" in the food table, the function leaves
    with the [KeyError] that names the missing label. *)
Example formular_sem_coluna :
  formular Exemplo.nutrientes
           (mkFrame 2 [("ingrediente", [CStr "Rice"; CStr "Beans"]);
                       ("quantidade", [CStr "kg"; CStr "saco"]);
                       ("preco", [CNum 2%float; CNum 3%float])])
  = Raise (KeyError "['Protein'] not in index").
Proof. reflexivity. Qed.

(** ** C4: answers of the solver that are not optimal *)

Lemma app_string_assoc (a b c : string) : (a ++ b) ++ c = a ++ (b ++ c).
Proof. induction a as [|ch a IH]; simpl; [reflexivity|rewrite IH; reflexivity]. Qed.

Lemma msg_inviavel_distinct (r : OptimizeResult) : msg_inviavel <> msg_sem_otimo r.
Proof. unfold msg_inviavel, msg_sem_otimo; simpl; intros H; discriminate H. Qed.

(** C4.  When the solver does not report success, what is printed is a
    message and nothing else: for status 2 the fixed text saying that no
    combination of foods meets the minimums, for any other status the
    text that carries the solver's status code and its message.  The two
    texts differ, and neither depends on the solution vector, on the
    objective value or on the tables. *)
Theorem relatar_not_optimal (bib : Bibliotecas) (dados_alimentos : DataFrame)
    (lp : LP) (nomes_nutrientes nomes_alimentos : list cell) (r : OptimizeResult) :
  success r = false ->
  (status r = 2%Z ->
   relatar bib dados_alimentos lp nomes_nutrientes nomes_alimentos r
     = Ok (msg_inviavel ++ nl)) /\
  (status r <> 2%Z ->
   relatar bib dados_alimentos lp nomes_nutrientes nomes_alimentos r
     = Ok (nl ++ "O problema não possui solução ótima. Status do solver: "
              ++ str_Z (status r) ++ nl ++ message r ++ nl)) /\
  msg_inviavel <> msg_sem_otimo r.
Proof.
  intros Hs; unfold relatar; rewrite Hs.
  split; [|split].
  - intros ->; reflexivity.
  - intros Hne. apply Z.eqb_neq in Hne; rewrite Hne.
    unfold msg_sem_otimo.
    rewrite !app_string_assoc; reflexivity.
  - apply msg_inviavel_distinct.
Qed.

Lemma relatar_not_optimal_witness :
  (status Exemplo.ilimitado = 2%Z ->
   relatar Exemplo.bib Exemplo.alimentos (mkLP [] (mkArray 0 0 []) []) [] []
           Exemplo.ilimitado
     = Ok (msg_inviavel ++ nl)) /\
  (status Exemplo.ilimitado <> 2%Z ->
   relatar Exemplo.bib Exemplo.alimentos (mkLP [] (mkArray 0 0 []) []) [] []
           Exemplo.ilimitado
     = Ok (nl ++ "O problema não possui solução ótima. Status do solver: "
              ++ str_Z (status Exemplo.ilimitado) ++ nl
              ++ message Exemplo.ilimitado ++ nl)) /\
  msg_inviavel <> msg_sem_otimo Exemplo.ilimitado.
Proof.
  apply (relatar_not_optimal Exemplo.bib Exemplo.alimentos
           (mkLP [] (mkArray 0 0 []) []) [] [] Exemplo.ilimitado).
  reflexivity.
Defined.

(** ** The purchase loop *)

Lemma item_Ok {A : Type} (l : list A) (i : nat) (a : A) :
  item l i = Ok a -> nth_error l i = Some a.
Proof.
  unfold item; destruct (nth_error l i); intros H; inversion H; reflexivity.
Qed.

(** The loop started at index [i] on the tail [xs] of the solution vector
    [xs0] appends one entry per bought food, in increasing index order. *)
Lemma melhor_solucao_desde_spec (bib : Bibliotecas) (dados_alimentos : DataFrame)
    (nomes_alimentos : list cell) (xs0 : list float) :
  forall (xs : list float) (i : nat) (l : list linha_solucao),
    (forall k, nth_error xs k = nth_error xs0 (i + k)) ->
    melhor_solucao_desde bib dados_alimentos nomes_alimentos i xs = Ok l ->
    exists js,
      Forall2 (compra_de bib dados_alimentos nomes_alimentos xs0) js l /\
      StronglySorted lt js /\
      forall j, In j js <-> (i <= j /\ comprado xs0 j).
Proof.
  induction xs as [|valor xs IH]; intros i l Hxs H; simpl in H.
  - inversion H; subst; exists []; split; [constructor|split; [constructor|]].
    intros j; split; [intros []|].
    intros [Hle (v & Hv & _)].
    specialize (Hxs (j - i)); replace (i + (j - i)) with j in Hxs by lia.
    rewrite Hv in Hxs; destruct (j - i); discriminate.
  - assert (Hxs' : forall k, nth_error xs k = nth_error xs0 (S i + k)).
    { intros k; specialize (Hxs (S k)); simpl in Hxs.
      replace (S i + k) with (i + S k) by lia; exact Hxs. }
    assert (Hi : nth_error xs0 i = Some valor).
    { specialize (Hxs 0); simpl in Hxs; rewrite Nat.add_0_r in Hxs; auto. }
    destruct (PrimFloat.ltb tol valor) eqn:Ev.
    + apply bind_Ok in H as (nome & Hnome & H).
      apply bind_Ok in H as (unidade & Hun & H).
      apply bind_Ok in H as (resto & Hresto & H).
      inversion H; subst l; clear H.
      destruct (IH _ _ Hxs' Hresto) as (js & HF & Hsort & Hin).
      exists (i :: js); split; [|split].
      * constructor; [|assumption].
        exists valor, nome, unidade; repeat split; auto using item_Ok.
      * constructor; [assumption|].
        rewrite Forall_forall; intros j Hj; apply Hin in Hj; lia.
      * intros j; split.
        -- intros [<-|Hj].
           ++ split; [lia|exists valor; auto].
           ++ apply Hin in Hj; split; [lia|tauto].
        -- intros [Hle Hc].
           destruct (Nat.eq_dec i j) as [->|Hne]; [left; reflexivity|].
           right; apply Hin; split; [lia|assumption].
    + destruct (IH _ _ Hxs' H) as (js & HF & Hsort & Hin).
      exists js; split; [assumption|split; [assumption|]].
      intros j; split.
      * intros Hj; apply Hin in Hj; split; [lia|tauto].
      * intros [Hle Hc]. apply Hin; split; [|assumption].
        destruct (Nat.eq_dec i j) as [->|Hne]; [|lia].
        destruct Hc as (v & Hv & Hlt). congruence.
Qed.

Lemma montar_relatorio_compras (bib : Bibliotecas) (dados_alimentos : DataFrame)
    (lp : LP) (nomes_nutrientes nomes_alimentos : list cell) (r : OptimizeResult)
    (rel : relatorio_otimo) :
  montar_relatorio bib dados_alimentos lp nomes_nutrientes nomes_alimentos r = Ok rel ->
  melhor_solucao bib dados_alimentos nomes_alimentos (x r) = Ok (rel_compras rel).
Proof.
  unfold montar_relatorio; intros H.
  apply bind_Ok in H as (compras & Hc & H).
  apply bind_Ok in H as (cons & _ & H).
  apply bind_Ok in H as (ln & _ & H).
  inversion H; subst; exact Hc.
Qed.

(** ** C6: which foods are listed as bought *)

(** C6.  In the report of an optimal answer the list of purchases has
    exactly one entry per food index [j] with [x[j] > 1e-6], in index
    order, each built from the name and the quantity at that index.  The
    comparison is strict: an index whose quantity is [1e-6] itself has no
    entry. *)
Theorem compras_threshold (bib : Bibliotecas) (dados_alimentos : DataFrame)
    (lp : LP) (nomes_nutrientes nomes_alimentos : list cell) (r : OptimizeResult)
    (rel : relatorio_otimo) :
  montar_relatorio bib dados_alimentos lp nomes_nutrientes nomes_alimentos r = Ok rel ->
  exists js,
    Forall2 (compra_de bib dados_alimentos nomes_alimentos (x r)) js (rel_compras rel) /\
    StronglySorted lt js /\
    (forall j, In j js <->
               exists valor, nth_error (x r) j = Some valor /\
                             PrimFloat.ltb tol valor = true) /\
    (forall j, nth_error (x r) j = Some tol -> ~ In j js).
Proof.
  intros H; apply montar_relatorio_compras in H.
  destruct (melhor_solucao_desde_spec bib dados_alimentos nomes_alimentos (x r)
              (x r) 0 (rel_compras rel) (fun k => eq_refl) H)
    as (js & HF & Hs & Hin).
  exists js; split; [assumption|split; [assumption|split]].
  - intros j; rewrite Hin; unfold comprado; split; [tauto|].
    intros Hc; split; [lia|assumption].
  - intros j Hj Hjs. apply Hin in Hjs as [_ (v & Hv & Hlt)].
    rewrite Hj in Hv; inversion Hv; subst v.
    vm_compute in Hlt; discriminate.
Qed.

Lemma compras_threshold_witness :
  exists js,
    Forall2 (compra_de Exemplo.bib Exemplo.alimentos
               [CStr "Rice"; CStr "Beans"] (x Exemplo.resposta)) js
            [mkLinha (CStr "Beans") "#" (CStr "saco")] /\
    StronglySorted lt js /\
    (forall j, In j js <->
               exists valor, nth_error (x Exemplo.resposta) j = Some valor /\
                             PrimFloat.ltb tol valor = true) /\
    (forall j, nth_error (x Exemplo.resposta) j = Some tol -> ~ In j js).
Proof.
  apply (compras_threshold Exemplo.bib Exemplo.alimentos
           (mkLP [CNum 2%float; CNum 3%float]
                 (mkArray 1 2 [[(-25)%float; (-100)%float]]) [(-50)%float])
           [CStr "Protein"] [CStr "Rice"; CStr "Beans"] Exemplo.resposta
           (mkRelatorio 1.5%float
              [mkLinha (CStr "Beans") "#" (CStr "saco")]
              [mkNutriente (CStr "Protein") 50%float 50%float "OK"])).
  vm_compute; reflexivity.
Defined.

(** ** The purchase unit shown for a food *)




(** ** Order on binary64 values *)


Lemma SFcompare_refl (x : spec_float) :
  x <> S754_nan -> SFcompare x x = Some Eq.
Proof.
  destruct x as [sx|sx| |sx mx ex]; simpl; intros H;
    try reflexivity; try congruence.
  - destruct sx; reflexivity.
  - change (IntDef.Z.compare ex ex) with (Z.compare ex ex).
    change (PosDef.Pos.compare_cont Eq mx mx) with (Pos.compare mx mx).
    rewrite Z.compare_refl, Pos.compare_refl. destruct sx; reflexivity.
Qed.






(** ** C10: the unit label of a purchase *)



(** The third line of the table is a second "Rice", whose own unit is
    "lata"; the report shows "kg", the unit of the first "Rice". *)
Example unidade_de_repetido :
  unidade_de Exemplo.alimentos_repetidos (CStr "Rice") = Ok (CStr "kg") /\
  nth_error [CStr "kg"; CStr "saco"; CStr "lata"] 2 = Some (CStr "lata").
Proof. split; reflexivity. Qed.

(** ** The nutrient check *)

Lemma verificacao_desde_spec (cons mins : list float) :
  forall (nomes : list cell) (i : nat) (l : list linha_nutriente),
    verificacao_desde cons mins i nomes = Ok l ->
    length l = length nomes /\
    forall k nome, nth_error nomes k = Some nome ->
      exists c m,
        nth_error cons (i + k) = Some c /\
        nth_error mins (i + k) = Some m /\
        nth_error l k = Some (mkNutriente nome c m (atendido c m)).
Proof.
  induction nomes as [|n0 nomes IH]; intros i l H; simpl in H.
  - inversion H; subst; split; [reflexivity|].
    intros [|k] nome Hk; discriminate.
  - apply bind_Ok in H as (ci & Hci & H).
    apply bind_Ok in H as (mi & Hmi & H).
    apply bind_Ok in H as (resto & Hresto & H).
    inversion H; subst l; clear H.
    destruct (IH _ _ Hresto) as [Hlen Hnth].
    split; [simpl; congruence|].
    intros [|k] nome Hk; simpl in Hk.
    + inversion Hk; subst n0.
      exists ci, mi; rewrite Nat.add_0_r.
      repeat split; auto using item_Ok.
    + destruct (Hnth _ _ Hk) as (c & m & Hc & Hm & Hl).
      exists c, m; replace (i + S k) with (S i + k) by lia.
      repeat split; assumption.
Qed.


Lemma atendido_FALHA (c m : float) :
  atendido c m = "FALHA" <-> PrimFloat.leb (PrimFloat.sub m tol) c = false.
Proof.
  unfold atendido, dentro_da_tolerancia.
  destruct (PrimFloat.leb (PrimFloat.sub m tol) c); split; intros H;
    try reflexivity; discriminate.
Qed.

Lemma montar_relatorio_nutrientes (bib : Bibliotecas) (dados_alimentos : DataFrame)
    (lp : LP) (nomes_nutrientes nomes_alimentos : list cell) (r : OptimizeResult)
    (rel : relatorio_otimo) :
  montar_relatorio bib dados_alimentos lp nomes_nutrientes nomes_alimentos r = Ok rel ->
  exists cons,
    consumido (lp_A_ub lp) (x r) = Ok cons /\
    verificacao cons (minimo (lp_b_ub lp)) nomes_nutrientes = Ok (rel_nutrientes rel).
Proof.
  unfold montar_relatorio; intros H.
  apply bind_Ok in H as (compras & _ & H).
  apply bind_Ok in H as (cons & Hc & H).
  apply bind_Ok in H as (ln & Hl & H).
  inversion H; subst; simpl; eauto.
Qed.

(** ** C5: the satisfied / failed tag of a nutrient *)



(** The boundary at minimum 50: the total [50 - 1e-6] is satisfied, the
    binary64 value just below it is not. *)
Example atendido_na_fronteira :
  atendido (PrimFloat.sub 50 tol) 50 = "OK" /\
  atendido (PrimFloat.next_down (PrimFloat.sub 50 tol)) 50 = "FALHA".
Proof. split; vm_compute; reflexivity. Qed.

(** ** The loader *)

(** C9.  When either input file is missing, the loader raises the
    [FileNotFoundError] of line 11 and the only file accesses it has made
    are existence tests: no table has been read. *)
Theorem carregar_sem_arquivo (bib : Bibliotecas) (fs : sistema_de_arquivos)
    (nome_nutrientes nome_alimentos : string) (t0 : list evento) :
  fs nome_nutrientes = None \/ fs nome_alimentos = None ->
  exists t,
    carregar_dados_csv bib fs nome_nutrientes nome_alimentos t0
      = (Raise (FileNotFoundError (msg_arquivos nome_nutrientes nome_alimentos)),
         (t0 ++ t)%list) /\
    forallb (fun e => negb (is_read e)) t = true.
Proof.
  intros H.
  unfold carregar_dados_csv, falta_arquivo, bindIO, os_path_exists, raise, ret.
  destruct (fs nome_nutrientes) as [fn|] eqn:En; simpl.
  - destruct H as [H|H]; [discriminate|]. rewrite H; simpl.
    exists [EvExists nome_nutrientes; EvExists nome_alimentos]; split; [|reflexivity].
    rewrite <- app_assoc; reflexivity.
  - exists [EvExists nome_nutrientes]; split; reflexivity.
Qed.

Lemma carregar_sem_arquivo_witness :
  exists t,
    carregar_dados_csv Exemplo.bib Exemplo.fs_vazio "nutrientes.csv" "ingrediente.csv" []
      = (Raise (FileNotFoundError (msg_arquivos "nutrientes.csv" "ingrediente.csv")),
         ([] ++ t)%list) /\
    forallb (fun e => negb (is_read e)) t = true.
Proof.
  apply (carregar_sem_arquivo Exemplo.bib Exemplo.fs_vazio
           "nutrientes.csv" "ingrediente.csv" []).
  left; reflexivity.
Defined.

(** When both files are there, the loader reads the nutrient table, then
    the food table, and its result is that of the treatment of the food
    table. *)
Lemma carregar_com_arquivos (bib : Bibliotecas) (fs : sistema_de_arquivos)
    (nome_nutrientes nome_alimentos : string) (fn fa : arquivo)
    (dados_nutrientes lido : DataFrame) :
  fs nome_nutrientes = Some fn ->
  fs nome_alimentos = Some fa ->
  lido_utf_8 fn = Ok dados_nutrientes ->
  alimentos_lidos_de fa = Ok lido ->
  carregar_dados_csv bib fs nome_nutrientes nome_alimentos []
  = (match tratar_alimentos bib lido with
     | Ok dados_alimentos => Ok (dados_nutrientes, dados_alimentos)
     | Raise e => Raise e
     end,
     ([EvExists nome_nutrientes; EvExists nome_alimentos;
       EvReadCsv nome_nutrientes utf_8] ++ leituras_de nome_alimentos fa)%list).
Proof.
  intros Hn Ha Hnut Hl.
  unfold carregar_dados_csv, falta_arquivo, ler_alimentos, try_except, bindIO,
    os_path_exists, read_csv, raise, ret, lift.
  rewrite Hn, Ha; simpl. rewrite Hnut.
  unfold alimentos_lidos_de in Hl; unfold leituras_de.
  destruct (lido_utf_8 fa) as [d|e].
  - inversion Hl; subst d. destruct (tratar_alimentos bib lido); reflexivity.
  - simpl. rewrite Hl. destruct (tratar_alimentos bib lido); reflexivity.
Qed.

Lemma mapM_Raise_inv {A B : Type} (f : A -> result B) (l : list A) (e : exn) :
  mapM f l = Raise e -> exists a, In a l /\ f a = Raise e.
Proof.
  induction l as [|a0 l IH]; simpl; intros H; [discriminate|].
  destruct (f a0) as [b0|e0] eqn:E0; simpl in H.
  - destruct (mapM f l) as [bs|e1]; simpl in H; [discriminate|].
    inversion H; subst e1.
    destruct (IH eq_refl) as (a & Ha & Hf); eauto.
  - inversion H; subst e0; eauto.
Qed.

Lemma mapM_map_Forall2 {A B C : Type} (g : A -> B) (f : B -> result C)
      (l : list A) (l' : list C) :
  mapM f (map g l) = Ok l' -> Forall2 (fun a c => f (g a) = Ok c) l l'.
Proof.
  revert l'; induction l as [|a l IH]; simpl; intros l' H.
  - inversion H; constructor.
  - apply bind_Ok in H as (c & Hc & H).
    apply bind_Ok in H as (cs & Hcs & H).
    inversion H; subst; constructor; auto.
Qed.

Lemma to_numeric_cell_Ok (bib : Bibliotecas) (c c' : cell) :
  to_numeric_cell bib c = Ok c' -> is_num c' = true.
Proof.
  destruct c as [s|f]; simpl.
  - destruct (to_numeric_text bib s); intros H; inversion H; reflexivity.
  - intros H; inversion H; reflexivity.
Qed.



Lemma to_numeric_numerica (bib : Bibliotecas) (s s' : list cell) :
  to_numeric bib s = Ok s' -> numerica s' = true.
Proof.
  unfold to_numeric, numerica; revert s'.
  induction s as [|c s IH]; simpl; intros s' H.
  - inversion H; reflexivity.
  - apply bind_Ok in H as (c' & Hc & H).
    apply bind_Ok in H as (cs & Hcs & H).
    inversion H; subst; simpl.
    rewrite (to_numeric_cell_Ok _ _ _ Hc), (IH _ Hcs); reflexivity.
Qed.

Lemma converter_coluna_Ok (bib : Bibliotecas) (k : string) (s : list cell)
      (c : string * list cell) :
  converter_coluna bib (strip k, s) = Ok c ->
  fst c = strip k /\
  if a_converter (k, s)
  then to_numeric bib s = Ok (snd c) /\ numerica (snd c) = true
  else snd c = s.
Proof.
  unfold converter_coluna, a_converter; cbn [fst snd].
  destruct (in_list (strip k) colunas_chave); cbn [negb]; intros H.
  - inversion H; cbn [fst snd]; auto.
  - apply bind_Ok in H as (s' & Hs & H); inversion H; subst; cbn [fst snd].
    split; [reflexivity|]. split; [assumption|].
    exact (to_numeric_numerica _ _ _ Hs).
Qed.


Lemma verificar_colunas_chave (bib : Bibliotecas) (df : DataFrame) :
  in_list "ingrediente" (columns df) = true ->
  in_list "quantidade" (columns df) = true ->
  verificar_colunas colunas_chave df = Ok tt.
Proof. unfold colunas_chave; simpl; intros -> ->; reflexivity. Qed.



(** The table whose price column holds the text "abc" is refused with a
    [ValueError]; the table whose protein column holds the texts "25" and
    "100" is loaded with the numbers 25 and 100 in their place. *)
Example carregar_exemplos :
  fst (carregar_dados_csv Exemplo.bib (Exemplo.fs_com Exemplo.alimentos_ruins)
                          "nutrientes.csv" "ingrediente.csv" [])
    = Raise (ValueError "Unable to parse string 'abc'") /\
  fst (carregar_dados_csv Exemplo.bib (Exemplo.fs_com Exemplo.alimentos_lidos)
                          "nutrientes.csv" "ingrediente.csv" [])
    = Ok (Exemplo.nutrientes, Exemplo.alimentos).
Proof. split; vm_compute; reflexivity. Qed.

(** ** C7: the columns read from the nutrient table *)

(** C7 as stated fails.  On a nutrient table whose columns are labelled
    [nutrients] and [minimum], the program reads neither: it leaves at
    line 49 with the [KeyError] of the label [nutrientes]; and with the
    names under [nutrientes] but the requirements still under [minimum],
    it leaves at line 55 with the [KeyError] of the label [minimo].  The
    same data under the labels [nutrientes] and [minimo] is formulated. *)
Lemma minimum_column_not_read :
  formular Exemplo.nutrientes_minimum Exemplo.alimentos
    = Raise (KeyError "'nutrientes'") /\
  resolver_problema_dieta_scipy Exemplo.bib Exemplo.nutrientes_minimum Exemplo.alimentos
    = Raise (KeyError "'nutrientes'") /\
  getitem Exemplo.nutrientes_minimum "nutrients" = Ok [CStr "Protein"] /\
  getitem Exemplo.nutrientes_minimum "minimum" = Ok [CNum 50%float] /\
  formular (mkFrame 1 [("nutrientes", [CStr "Protein"]);
                       ("minimum", [CNum 50%float])]) Exemplo.alimentos
    = Raise (KeyError "'minimo'") /\
  exists lp nomes_nutrientes nomes_alimentos,
    formular Exemplo.nutrientes Exemplo.alimentos
      = Ok (lp, nomes_nutrientes, nomes_alimentos).
Proof.
  repeat split; try reflexivity.
  eexists _, _, _; vm_compute; reflexivity.
Qed.

(** C7, amended.  The nutrient names are the column [nutrientes] and the
    minimums are the column [minimo] of the nutrient table: when the
    formulation succeeds, the names it returns are that first column and
    [b_ub] is the negation of that second column; no other column of the
    nutrient table is read, two nutrient tables that agree on these two
    columns giving the same outcome; and without a column [nutrientes],
    or without a column [minimo], the program leaves with a
    [KeyError]. *)
Theorem formular_reads_nutrientes_minimo
    (dados_nutrientes outra dados_alimentos : DataFrame) :
  (forall lp nomes_nutrientes nomes_alimentos,
      formular dados_nutrientes dados_alimentos
        = Ok (lp, nomes_nutrientes, nomes_alimentos) ->
      getitem dados_nutrientes "nutrientes" = Ok nomes_nutrientes /\
      exists minimos,
        getitem dados_nutrientes "minimo" = Ok minimos /\
        neg_vector minimos = Ok (lp_b_ub lp)) /\
  (getitem outra "nutrientes" = getitem dados_nutrientes "nutrientes" ->
   getitem outra "minimo" = getitem dados_nutrientes "minimo" ->
   formular outra dados_alimentos = formular dados_nutrientes dados_alimentos) /\
  (find_col "nutrientes" (cols dados_nutrientes) = None \/
   find_col "minimo" (cols dados_nutrientes) = None ->
   exists e, formular dados_nutrientes dados_alimentos = Raise e /\
             is_KeyError e = true).
Proof.
  split; [|split].
  - intros lp nn na H; unfold formular in H.
    apply bind_Ok in H as (c & _ & H).
    apply bind_Ok in H as (nn' & Hnn & H).
    apply bind_Ok in H as (na' & _ & H).
    apply bind_Ok in H as (mins & Hm & H).
    apply bind_Ok in H as (b & Hb & H).
    apply bind_Ok in H as (sel & _ & H).
    apply bind_Ok in H as (A & _ & H).
    inversion H; subst; simpl.
    split; [assumption|]. exists mins; auto.
  - intros Hn Hm; unfold formular; rewrite Hn, Hm; reflexivity.
  - intros Hnone; unfold formular.
    unfold getitem at 1.
    destruct (find_col "preco" (cols dados_alimentos)); cbn [bind];
      [|eexists; split; reflexivity].
    unfold getitem at 1.
    destruct (find_col "nutrientes" (cols dados_nutrientes)) eqn:En; cbn [bind];
      [|eexists; split; reflexivity].
    unfold getitem at 1.
    destruct (find_col "ingrediente" (cols dados_alimentos)); cbn [bind];
      [|eexists; split; reflexivity].
    destruct Hnone as [Hnone|Hnone]; [discriminate|].
    unfold getitem at 1; rewrite Hnone; cbn [bind].
    eexists; split; reflexivity.
Qed.

(** ** Arithmetic on binary64 values: negation and the sign of results *)

Lemma Prim2SF_menos_um : Prim2SF menos_um = sf_menos_um.
Proof. vm_compute. reflexivity. Qed.

Lemma digits2_pos_shift52 (m : positive) :
  Z.pos (digits2_pos (4503599627370496 * m)) = (Z.pos (digits2_pos m) + 52)%Z.
Proof.
  change (4503599627370496 * m)%positive
    with (Pos.iter xO m 52%positive).
  cbn [Pos.iter digits2_pos].
  change PosDef.Pos.succ with Pos.succ.
  repeat rewrite Pos2Z.inj_succ. lia.
Qed.

Lemma shr_shift52 (m : positive) (e : Z) :
  shr {| shr_m := Z.pos (4503599627370496 * m); shr_r := false; shr_s := false |} e 52
  = ({| shr_m := Z.pos m; shr_r := false; shr_s := false |}, (e + 52)%Z).
Proof. reflexivity. Qed.

Lemma SFmul_menos_um (x : spec_float) :
  valid_binary x = true -> SFmul prec emax x sf_menos_um = SFopp x.
Proof.
  destruct x as [sx|sx| |sx mx ex]; simpl; intros Hv;
    try (destruct sx; reflexivity); try reflexivity.
  apply andb_true_iff in Hv as [Hc Hb].
  unfold canonical_mantissa in Hc.
  change IntDef.Z.eqb with Z.eqb in Hc. apply Z.eqb_eq in Hc.
  change (PosDef.Pos.mul mx 4503599627370496) with (Pos.mul mx 4503599627370496).
  rewrite Pos.mul_comm.
  unfold binary_round_aux, shr_fexp.
  cbn [Zdigits2].
  change IntDef.Z.add with Z.add. change IntDef.Z.sub with Z.sub.
  rewrite digits2_pos_shift52.
  replace (Z.pos (digits2_pos mx) + 52 + (ex + -52))%Z
    with (Z.pos (digits2_pos mx) + ex)%Z by lia.
  change IntDef.Z.add with Z.add in Hc. rewrite Hc.
  replace (ex - (ex + -52))%Z with 52%Z by lia.
  cbn [shr_record_of_loc].
  rewrite shr_shift52.
  cbn [shr_m loc_of_shr_record round_nearest_even shr_r shr_s Zdigits2 shr_record_of_loc].
  replace (ex + -52 + 52)%Z with ex by lia.
  rewrite Hc. rewrite Z.sub_diag. cbn [shr shr_m].
  change IntDef.Z.leb with Z.leb in *. rewrite Hb.
  destruct sx; reflexivity.
Qed.

Lemma sf_equiv_refl (x : spec_float) : sf_equiv x x.
Proof. left; reflexivity. Qed.

Lemma sf_equiv_trans (x y z : spec_float) :
  sf_equiv x y -> sf_equiv y z -> sf_equiv x z.
Proof.
  intros [->|[Hx Hy]] [->|[Hy' Hz]]; unfold sf_equiv; auto.
Qed.

Lemma binary_round_aux_negb (s : bool) (m e : Z) (l : location) :
  binary_round_aux prec emax (negb s) m e l
  = SFopp (binary_round_aux prec emax s m e l).
Proof.
  unfold binary_round_aux.
  destruct (shr_fexp prec emax m e l) as [mrs' e'].
  destruct (shr_fexp prec emax _ e' loc_Exact) as [mrs'' e''].
  destruct (shr_m mrs''); try reflexivity.
  destruct (IntDef.Z.leb e'' (IntDef.Z.sub emax prec)); reflexivity.
Qed.

Lemma SFmul_opp_l (a b : spec_float) :
  SFmul prec emax (SFopp a) b = SFopp (SFmul prec emax a b).
Proof.
  destruct a as [sa|sa| |sa ma ea], b as [sb|sb| |sb mb eb]; simpl;
    try reflexivity;
    try (destruct sa, sb; reflexivity).
  rewrite <- binary_round_aux_negb. destruct sa, sb; reflexivity.
Qed.

Lemma binary_round_negb (s : bool) (m : positive) (e : Z) :
  binary_round prec emax (negb s) m e = SFopp (binary_round prec emax s m e).
Proof.
  unfold binary_round.
  destruct (shl_align m e _) as [mz ez].
  apply binary_round_aux_negb.
Qed.

Lemma binary_normalize_opp (m e : Z) :
  sf_equiv (binary_normalize prec emax (- m) e false)
           (SFopp (binary_normalize prec emax m e false)).
Proof.
  destruct m as [|p|p]; simpl.
  - right; split; reflexivity.
  - left. exact (binary_round_negb false p e).
  - left. exact (binary_round_negb true p e).
Qed.

Lemma cond_Zopp_negb (s : bool) (m : Z) : cond_Zopp (negb s) m = (- cond_Zopp s m)%Z.
Proof. destruct s; simpl; [symmetry; apply Z.opp_involutive|reflexivity]. Qed.

Lemma SFadd_opp (a b : spec_float) :
  sf_equiv (SFadd prec emax (SFopp a) (SFopp b)) (SFopp (SFadd prec emax a b)).
Proof.
  destruct a as [sa|sa| |sa ma ea], b as [sb|sb| |sb mb eb]; simpl;
    try (left; reflexivity);
    try (destruct sa, sb; simpl; (left; reflexivity) || (right; split; reflexivity)).
  rewrite !cond_Zopp_negb.
  change IntDef.Z.add with Z.add.
  rewrite <- Z.opp_add_distr.
  apply binary_normalize_opp.
Qed.

Lemma SFadd_equiv (a a' b b' : spec_float) :
  sf_equiv a a' -> sf_equiv b b' ->
  sf_equiv (SFadd prec emax a b) (SFadd prec emax a' b').
Proof.
  intros [->|[Ha Ha']] [->|[Hb Hb']].
  - left; reflexivity.
  - destruct b as [sb|sb| |sb mb eb]; try discriminate.
    destruct b' as [sb'|sb'| |sb' mb' eb']; try discriminate.
    destruct a' as [sa|sa| |sa ma ea]; simpl;
      try (left; reflexivity).
    destruct sa, sb, sb'; simpl; (left; reflexivity) || (right; split; reflexivity).
  - destruct a as [sa|sa| |sa ma ea]; try discriminate.
    destruct a' as [sa'|sa'| |sa' ma' ea']; try discriminate.
    destruct b' as [sb|sb| |sb mb eb]; simpl;
      try (left; reflexivity).
    destruct sa, sa', sb; simpl; (left; reflexivity) || (right; split; reflexivity).
  - destruct a as [sa|sa| |sa ma ea]; try discriminate.
    destruct a' as [sa'|sa'| |sa' ma' ea']; try discriminate.
    destruct b as [sb|sb| |sb mb eb]; try discriminate.
    destruct b' as [sb'|sb'| |sb' mb' eb']; try discriminate.
    right; destruct sa, sa', sb, sb'; split; reflexivity.
Qed.

Lemma mul_menos_um (a : float) : PrimFloat.mul a menos_um = PrimFloat.opp a.
Proof.
  apply Prim2SF_inj.
  rewrite mul_spec, opp_spec, Prim2SF_menos_um.
  apply SFmul_menos_um, Prim2SF_valid.
Qed.

Lemma mul_opp_l (a b : float) :
  PrimFloat.mul (PrimFloat.opp a) b = PrimFloat.opp (PrimFloat.mul a b).
Proof.
  apply Prim2SF_inj.
  rewrite mul_spec, !opp_spec, mul_spec. apply SFmul_opp_l.
Qed.

Lemma opp_involutive (a : float) : PrimFloat.opp (PrimFloat.opp a) = a.
Proof.
  apply Prim2SF_inj. rewrite !opp_spec.
  destruct (Prim2SF a) as [s|s| |s m e]; simpl; try rewrite negb_involutive; reflexivity.
Qed.

Lemma add_opp_mesmo_valor (a b : float) :
  mesmo_valor (PrimFloat.add (PrimFloat.opp a) (PrimFloat.opp b))
              (PrimFloat.opp (PrimFloat.add a b)).
Proof.
  unfold mesmo_valor. rewrite add_spec, !opp_spec, add_spec. apply SFadd_opp.
Qed.

Lemma add_mesmo_valor (a a' b b' : float) :
  mesmo_valor a a' -> mesmo_valor b b' ->
  mesmo_valor (PrimFloat.add a b) (PrimFloat.add a' b').
Proof.
  unfold mesmo_valor; intros Ha Hb. rewrite !add_spec. apply SFadd_equiv; assumption.
Qed.

(** The accumulation of [np.dot] on a negated line is the negation of the
    accumulation on the line, up to the sign of a zero. *)
Lemma dot_scale_acc (xs : list float) :
  forall (linha : list float) (acc acc' : float),
    mesmo_valor acc' (PrimFloat.opp acc) ->
    mesmo_valor
      (fold_left (fun a ab => PrimFloat.add a (PrimFloat.mul (fst ab) (snd ab)))
                 (combine (map (fun e => PrimFloat.mul e menos_um) linha) xs) acc')
      (PrimFloat.opp
         (fold_left (fun a ab => PrimFloat.add a (PrimFloat.mul (fst ab) (snd ab)))
                    (combine linha xs) acc)).
Proof.
  induction xs as [|x0 xs IH]; intros [|a linha] acc acc' H; simpl; try assumption.
  apply IH.
  rewrite mul_menos_um, mul_opp_l.
  unfold mesmo_valor in *.
  eapply sf_equiv_trans; [|apply add_opp_mesmo_valor].
  apply add_mesmo_valor; [assumption|apply sf_equiv_refl].
Qed.

Lemma dot_scale (linha xs : list float) :
  mesmo_valor (dot (map (fun e => PrimFloat.mul e menos_um) linha) xs)
              (PrimFloat.opp (dot linha xs)).
Proof.
  unfold dot. apply dot_scale_acc.
  right; split; reflexivity.
Qed.

Lemma SFsub_equiv_zero (v w : spec_float) :
  sf_equiv v w ->
  SFltb (SFabs v) (S754_infinity false) = true ->
  SFabs (SFsub prec emax v w) = S754_zero false.
Proof.
  intros [<-|[Hv Hw]] Hfin.
  - destruct v as [s|s| |s m e]; simpl in *; try discriminate.
    + destruct s; reflexivity.
    + change IntDef.Z.sub with Z.sub. rewrite Z.sub_diag. reflexivity.
  - destruct v as [s| | |]; try discriminate.
    destruct w as [s'| | |]; try discriminate.
    destruct s, s'; reflexivity.
Qed.

Lemma sf_equiv_mesmo_numero (a b : float) :
  mesmo_valor a b -> mesmo_numero a b = true.
Proof.
  unfold mesmo_valor, mesmo_numero, PrimFloat.is_nan.
  rewrite !eqb_spec. unfold SFeqb.
  intros [->|[Ha Hb]].
  - destruct (Prim2SF b) as [s|s| |s m e] eqn:E.
    + reflexivity.
    + rewrite SFcompare_refl by discriminate. reflexivity.
    + reflexivity.
    + rewrite SFcompare_refl by discriminate. reflexivity.
  - destruct (Prim2SF a); try discriminate.
    destruct (Prim2SF b); try discriminate. reflexivity.
Qed.

Lemma mesmo_valor_tolerancia (a b : float) :
  mesmo_valor a b -> finito a = true ->
  PrimFloat.leb (PrimFloat.abs (PrimFloat.sub a b)) tol = true.
Proof.
  unfold mesmo_valor, finito; intros H Hfin.
  rewrite ltb_spec, abs_spec in Hfin.
  change (Prim2SF PrimFloat.infinity) with (S754_infinity false) in Hfin.
  rewrite leb_spec, abs_spec, sub_spec.
  unfold SF64sub. rewrite (SFsub_equiv_zero _ _ H Hfin).
  vm_compute; reflexivity.
Qed.

(** ** C2: the recomputed totals against the matrix handed to the solver *)

(** C2.  In the report of an optimal answer, the totals shown are the
    vector [consumido = np.dot(A_ub * -1, x)]; each of its components is
    the negation of the same component of [np.dot(A_ub, x)]: the two are
    equal for Python's [==] or are both NaN, and when the total is finite
    their difference is at most [1e-6] in absolute value (it is zero). *)
Theorem consumido_roundtrip (bib : Bibliotecas) (dados_alimentos : DataFrame)
    (lp : LP) (nomes_nutrientes nomes_alimentos : list cell) (r : OptimizeResult)
    (rel : relatorio_otimo) :
  montar_relatorio bib dados_alimentos lp nomes_nutrientes nomes_alimentos r = Ok rel ->
  exists cons prod,
    consumido (lp_A_ub lp) (x r) = Ok cons /\
    matvec (lp_A_ub lp) (x r) = Ok prod /\
    length cons = length prod /\
    (forall i nome, nth_error nomes_nutrientes i = Some nome ->
       exists l, nth_error (rel_nutrientes rel) i = Some l /\
                 nth_error cons i = Some (nut_consumido l)) /\
    (forall i c p, nth_error cons i = Some c -> nth_error prod i = Some p ->
       mesmo_numero c (PrimFloat.opp p) = true /\
       (finito c = true ->
        PrimFloat.leb (PrimFloat.abs (PrimFloat.sub c (PrimFloat.opp p))) tol = true)).
Proof.
  intros H.
  destruct (montar_relatorio_nutrientes _ _ _ _ _ _ _ H) as (cons & Hcons & Hv).
  destruct (verificacao_desde_spec _ _ _ _ _ Hv) as [_ Hnth].
  unfold consumido, matvec in Hcons |- *.
  cbn [scale_array shape1 linhas] in Hcons |- *.
  destruct (Nat.eqb (shape1 (lp_A_ub lp)) (length (x r))); [|discriminate].
  inversion Hcons; subst cons; clear Hcons.
  eexists _, _; split; [reflexivity|split; [reflexivity|]].
  split; [rewrite !length_map; reflexivity|].
  split.
  - intros i nome Hi.
    destruct (Hnth _ _ Hi) as (c & m & Hc & _ & Hl); simpl in Hc.
    eexists; split; [exact Hl|exact Hc].
  - intros i c p Hc Hp.
    rewrite !nth_error_map in Hc; rewrite nth_error_map in Hp.
    destruct (nth_error (linhas (lp_A_ub lp)) i) as [linha|]; [|discriminate].
    simpl in Hc, Hp; inversion Hc; inversion Hp; subst c p.
    pose proof (dot_scale linha (x r)) as Hd.
    split.
    + apply sf_equiv_mesmo_numero; assumption.
    + apply mesmo_valor_tolerancia; assumption.
Qed.

Lemma consumido_roundtrip_witness :
  exists cons prod,
    consumido (lp_A_ub Exemplo.lp_repetidos) (x Exemplo.resposta_repetidos) = Ok cons /\
    matvec (lp_A_ub Exemplo.lp_repetidos) (x Exemplo.resposta_repetidos) = Ok prod /\
    length cons = length prod /\
    (forall i nome, nth_error [CStr "Protein"] i = Some nome ->
       exists l, nth_error [mkNutriente (CStr "Protein") 85%float 50%float "OK"] i
                   = Some l /\
                 nth_error cons i = Some (nut_consumido l)) /\
    (forall i c p, nth_error cons i = Some c -> nth_error prod i = Some p ->
       mesmo_numero c (PrimFloat.opp p) = true /\
       (finito c = true ->
        PrimFloat.leb (PrimFloat.abs (PrimFloat.sub c (PrimFloat.opp p))) tol = true)).
Proof.
  apply (consumido_roundtrip Exemplo.bib Exemplo.alimentos_repetidos
           Exemplo.lp_repetidos [CStr "Protein"]
           [CStr "Rice"; CStr "Beans"; CStr "Rice"]
           Exemplo.resposta_repetidos
           (mkRelatorio 10%float
              [mkLinha (CStr "Rice") "#" (CStr "kg");
               mkLinha (CStr "Rice") "#" (CStr "kg")]
              [mkNutriente (CStr "Protein") 85%float 50%float "OK"])).
  vm_compute; reflexivity.
Defined.

(** Un-negating gives back the content matrix: where [A_ub] holds the
    negation of a cell, [A_ub * -1] holds the cell. *)
Lemma scale_array_conteudo (A_ub : ndarray float) (i j : nat) (v : float) :
  entrada A_ub i j = Some (PrimFloat.opp v) ->
  entrada (scale_array A_ub menos_um) i j = Some v.
Proof.
  intros H. unfold entrada, scale_array in *; cbn [linhas] in *.
  rewrite nth_error_map.
  destruct (nth_error (linhas A_ub) i) as [linha|]; [|discriminate].
  simpl. rewrite nth_error_map, H; simpl.
  rewrite mul_menos_um, opp_involutive; reflexivity.
Qed.

(** At the threshold itself nothing is bought; one binary64 step above it,
    the food is. *)
Example compras_na_fronteira :
  melhor_solucao Exemplo.bib Exemplo.alimentos [CStr "Rice"; CStr "Beans"]
                 [tol; PrimFloat.next_up tol]
  = Ok [mkLinha (CStr "Beans") "#" (CStr "saco")].
Proof. vm_compute; reflexivity. Qed.

(** The whole function on the example tables, for a solver that answers
    "infeasible" and for one that answers "unbounded". *)
Example resolver_sem_otimo :
  resolver_problema_dieta_scipy (Exemplo.bib_com Exemplo.inviavel)
                                Exemplo.nutrientes Exemplo.alimentos
    = Ok (msg_inviavel ++ nl) /\
  resolver_problema_dieta_scipy (Exemplo.bib_com Exemplo.ilimitado)
                                Exemplo.nutrientes Exemplo.alimentos
    = Ok (nl ++ "O problema não possui solução ótima. Status do solver: 3"
             ++ nl ++ "The problem is unbounded." ++ nl).
Proof. split; vm_compute; reflexivity. Qed.

(** * Further properties of the loader *)

Lemma columns_strip_columns (df : DataFrame) :
  columns (strip_columns df) = map strip (columns df).
Proof. unfold columns, strip_columns; simpl. rewrite !map_map; reflexivity. Qed.

(** X1.  A food table with ASCII labels that lacks a key column, once its
    labels are stripped, is refused with a [KeyError] whose text names the
    missing column and lists the labels read; [ingrediente] is looked for
    first.  The refusal comes before any conversion: it does not depend on
    the cells of the table. *)
Theorem carregar_sem_coluna_chave (bib : Bibliotecas) (fs : sistema_de_arquivos)
    (nome_nutrientes nome_alimentos : string) (fn fa : arquivo)
    (dados_nutrientes lido : DataFrame) (col : string) :
  fs nome_nutrientes = Some fn ->
  fs nome_alimentos = Some fa ->
  lido_utf_8 fn = Ok dados_nutrientes ->
  alimentos_lidos_de fa = Ok lido ->
  forallb so_ascii (columns lido) = true ->
  in_list col (map strip (columns lido)) = false ->
  col = "ingrediente" \/
  (col = "quantidade" /\ in_list "ingrediente" (map strip (columns lido)) = true) ->
  fst (carregar_dados_csv bib fs nome_nutrientes nome_alimentos [])
  = Raise (KeyError (msg_coluna col (map strip (columns lido)))).
Proof.
  intros Hn Ha Hnut Hl _ Hcol Hwhich.
  rewrite (carregar_com_arquivos bib fs _ _ fn fa dados_nutrientes lido Hn Ha Hnut Hl).
  cbn [fst]. unfold tratar_alimentos, colunas_chave.
  cbn [verificar_colunas]. rewrite columns_strip_columns.
  destruct Hwhich as [->|[-> Hi]].
  - rewrite Hcol; reflexivity.
  - rewrite Hi, Hcol; reflexivity.
Qed.

Lemma carregar_sem_coluna_chave_witness :
  fst (carregar_dados_csv Exemplo.bib
         (Casos.fs_de Casos.arq_nutrientes
            (mkArquivo (Ok Casos.alimentos_sem_quantidade)
                       (Ok Casos.alimentos_sem_quantidade)))
         "nutrientes.csv" "ingrediente.csv" [])
  = Raise (KeyError (msg_coluna "quantidade"
                       (map strip (columns Casos.alimentos_sem_quantidade)))).
Proof.
  apply (carregar_sem_coluna_chave Exemplo.bib _ "nutrientes.csv" "ingrediente.csv"
           Casos.arq_nutrientes
           (mkArquivo (Ok Casos.alimentos_sem_quantidade)
                      (Ok Casos.alimentos_sem_quantidade))
           Exemplo.nutrientes Casos.alimentos_sem_quantidade "quantidade");
    try reflexivity.
  right; split; reflexivity.
Defined.

(** X2.  When the first read of the food file raises, whatever the
    exception, the file is read a second time as Latin-1 and the first
    exception is dropped: the loader goes on with the table of the second
    read, or leaves with the exception of the second read. *)
Theorem carregar_fallback_latin1 (bib : Bibliotecas) (fs : sistema_de_arquivos)
    (nome_nutrientes nome_alimentos : string) (fn fa : arquivo)
    (dados_nutrientes : DataFrame) (e1 : exn) :
  fs nome_nutrientes = Some fn ->
  fs nome_alimentos = Some fa ->
  lido_utf_8 fn = Ok dados_nutrientes ->
  lido_utf_8 fa = Raise e1 ->
  carregar_dados_csv bib fs nome_nutrientes nome_alimentos []
  = (match lido_latin1 fa with
     | Ok lido =>
         match tratar_alimentos bib lido with
         | Ok dados_alimentos => Ok (dados_nutrientes, dados_alimentos)
         | Raise e => Raise e
         end
     | Raise e2 => Raise e2
     end,
     [EvExists nome_nutrientes; EvExists nome_alimentos;
      EvReadCsv nome_nutrientes utf_8;
      EvReadCsv nome_alimentos utf_8; EvReadCsv nome_alimentos latin1]).
Proof.
  intros Hn Ha Hnut He1.
  unfold carregar_dados_csv, falta_arquivo, ler_alimentos, try_except, bindIO,
    os_path_exists, read_csv, raise, ret, lift.
  rewrite Hn, Ha; simpl. rewrite Hnut, He1.
  destruct (lido_latin1 fa) as [lido|e2]; [|reflexivity].
  destruct (tratar_alimentos bib lido); reflexivity.
Qed.

Lemma carregar_fallback_latin1_witness :
  carregar_dados_csv Exemplo.bib (Casos.fs_de Casos.arq_nutrientes Casos.arq_ilegivel)
                     "nutrientes.csv" "ingrediente.csv" []
  = (match lido_latin1 Casos.arq_ilegivel with
     | Ok lido =>
         match tratar_alimentos Exemplo.bib lido with
         | Ok dados_alimentos => Ok (Exemplo.nutrientes, dados_alimentos)
         | Raise e => Raise e
         end
     | Raise e2 => Raise e2
     end,
     [EvExists "nutrientes.csv"; EvExists "ingrediente.csv";
      EvReadCsv "nutrientes.csv" utf_8;
      EvReadCsv "ingrediente.csv" utf_8; EvReadCsv "ingrediente.csv" latin1]).
Proof.
  apply (carregar_fallback_latin1 Exemplo.bib _ "nutrientes.csv" "ingrediente.csv"
           Casos.arq_nutrientes Casos.arq_ilegivel Exemplo.nutrientes Casos.erro_utf_8);
    reflexivity.
Defined.

(** X3.  The nutrient file has no second chance: when its read raises, the
    loader leaves with that exception, and the food file has not been
    read. *)
Theorem carregar_nutrientes_ilegivel (bib : Bibliotecas) (fs : sistema_de_arquivos)
    (nome_nutrientes nome_alimentos : string) (fn fa : arquivo) (e : exn) :
  fs nome_nutrientes = Some fn ->
  fs nome_alimentos = Some fa ->
  lido_utf_8 fn = Raise e ->
  carregar_dados_csv bib fs nome_nutrientes nome_alimentos []
  = (Raise e, [EvExists nome_nutrientes; EvExists nome_alimentos;
               EvReadCsv nome_nutrientes utf_8]).
Proof.
  intros Hn Ha He.
  unfold carregar_dados_csv, falta_arquivo, bindIO, os_path_exists, read_csv,
    raise, ret.
  rewrite Hn, Ha; simpl. rewrite He; reflexivity.
Qed.

Lemma carregar_nutrientes_ilegivel_witness :
  carregar_dados_csv Exemplo.bib
    (Casos.fs_de (mkArquivo (Raise Casos.erro_utf_8) (Ok Exemplo.nutrientes))
                 Casos.arq_latin1)
    "nutrientes.csv" "ingrediente.csv" []
  = (Raise Casos.erro_utf_8,
     [EvExists "nutrientes.csv"; EvExists "ingrediente.csv";
      EvReadCsv "nutrientes.csv" utf_8]).
Proof.
  apply (carregar_nutrientes_ilegivel Exemplo.bib _ "nutrientes.csv" "ingrediente.csv"
           (mkArquivo (Raise Casos.erro_utf_8) (Ok Exemplo.nutrientes))
           Casos.arq_latin1 Casos.erro_utf_8); reflexivity.
Defined.

Lemma espaco_inicial_encurta : encurta espaco_inicial.
Proof.
  intros l r H. destruct l as [|a [|b [|c l]]]; simpl in H; try discriminate.
  - destruct (is_space a); inversion H; subst. exists [a]; split; [discriminate|reflexivity].
  - destruct (is_space a); [inversion H; subst; exists [a]; split; [discriminate|reflexivity]|].
    destruct (is_space2 a b); inversion H; subst.
    exists [a; b]; split; [discriminate|reflexivity].
  - destruct (is_space a); [inversion H; subst; exists [a]; split; [discriminate|reflexivity]|].
    destruct (is_space2 a b); [inversion H; subst; exists [a; b]; split; [discriminate|reflexivity]|].
    destruct (is_space3 a b c); inversion H; subst.
    exists [a; b; c]; split; [discriminate|reflexivity].
Qed.

Lemma espaco_final_encurta : encurta espaco_final.
Proof.
  intros l r H. destruct l as [|a [|b [|c l]]]; simpl in H; try discriminate.
  - destruct (is_space a); inversion H; subst. exists [a]; split; [discriminate|reflexivity].
  - destruct (is_space a); [inversion H; subst; exists [a]; split; [discriminate|reflexivity]|].
    destruct (is_space2 b a); inversion H; subst.
    exists [a; b]; split; [discriminate|reflexivity].
  - destruct (is_space a); [inversion H; subst; exists [a]; split; [discriminate|reflexivity]|].
    destruct (is_space2 b a); [inversion H; subst; exists [a; b]; split; [discriminate|reflexivity]|].
    destruct (is_space3 c b a); inversion H; subst.
    exists [a; b; c]; split; [discriminate|reflexivity].
Qed.

Lemma tirar_fix (f : list ascii -> option (list ascii)) (n : nat) (l : list ascii) :
  f l = None -> tirar f n l = l.
Proof. intros H; destruct n; simpl; [reflexivity|rewrite H; reflexivity]. Qed.

Lemma tirar_None (f : list ascii -> option (list ascii)) :
  encurta f ->
  forall (n : nat) (l : list ascii), length l <= n -> f (tirar f n l) = None.
Proof.
  intros Hf. induction n as [|n IH]; intros l Hlen; simpl.
  - destruct l; [|simpl in Hlen; lia].
    destruct (f []) as [r|] eqn:E; [|reflexivity].
    destruct (Hf _ _ E) as (p & Hp & Heq).
    destruct p; [congruence|discriminate].
  - destruct (f l) as [r|] eqn:E; [|assumption].
    apply IH. destruct (Hf _ _ E) as (p & Hp & ->).
    rewrite length_app in Hlen. destruct p; [congruence|simpl in Hlen; lia].
Qed.

Lemma tirar_sufixo (f : list ascii -> option (list ascii)) :
  encurta f ->
  forall (n : nat) (l : list ascii), exists p, l = (p ++ tirar f n l)%list.
Proof.
  intros Hf. induction n as [|n IH]; intros l; simpl.
  - exists []; reflexivity.
  - destruct (f l) as [r|] eqn:E; [|exists []; reflexivity].
    destruct (Hf _ _ E) as (p & _ & ->).
    destruct (IH r) as [q Hq]. exists (p ++ q)%list.
    rewrite <- app_assoc, <- Hq. reflexivity.
Qed.

Lemma espaco_inicial_prefixo (p q : list ascii) :
  espaco_inicial (p ++ q) = None -> espaco_inicial p = None.
Proof.
  destruct p as [|a [|b [|c p]]]; simpl; try reflexivity.
  - destruct (is_space a); [discriminate|reflexivity].
  - destruct (is_space a); [discriminate|].
    destruct (is_space2 a b); [discriminate|reflexivity].
  - destruct (is_space a); [discriminate|].
    destruct (is_space2 a b); [discriminate|].
    destruct (is_space3 a b c); [discriminate|reflexivity].
Qed.

Lemma lstrip_bytes_None (l : list ascii) : espaco_inicial (lstrip_bytes l) = None.
Proof. apply (tirar_None _ espaco_inicial_encurta); reflexivity. Qed.

Lemma rstrip_bytes_idempotent (l : list ascii) :
  rstrip_bytes (rstrip_bytes l) = rstrip_bytes l.
Proof.
  unfold rstrip_bytes. rewrite rev_involutive. f_equal.
  apply tirar_fix. apply (tirar_None _ espaco_final_encurta).
  rewrite length_rev; reflexivity.
Qed.

Lemma rstrip_bytes_prefixo (l : list ascii) :
  exists q, l = (rstrip_bytes l ++ q)%list.
Proof.
  unfold rstrip_bytes.
  destruct (tirar_sufixo _ espaco_final_encurta (length l) (rev l)) as [p Hp].
  exists (rev p). rewrite <- rev_app_distr, <- Hp, rev_involutive. reflexivity.
Qed.

Lemma strip_bytes_idempotent (l : list ascii) :
  rstrip_bytes (lstrip_bytes (rstrip_bytes (lstrip_bytes l)))
  = rstrip_bytes (lstrip_bytes l).
Proof.
  assert (H : lstrip_bytes (rstrip_bytes (lstrip_bytes l)) = rstrip_bytes (lstrip_bytes l)).
  { unfold lstrip_bytes at 1. apply tirar_fix.
    destruct (rstrip_bytes_prefixo (lstrip_bytes l)) as [q Hq].
    apply (espaco_inicial_prefixo _ q). rewrite <- Hq. apply lstrip_bytes_None. }
  rewrite H. apply rstrip_bytes_idempotent.
Qed.

Lemma strip_idempotent (s : string) : strip (strip s) = strip s.
Proof.
  unfold strip. rewrite list_ascii_of_string_of_list_ascii.
  rewrite strip_bytes_idempotent. reflexivity.
Qed.

Lemma to_numeric_cell_convertivel (bib : Bibliotecas) (c : cell) :
  nao_numerico bib c = false -> exists c', to_numeric_cell bib c = Ok c'.
Proof.
  destruct c as [s|f]; simpl; [|eauto].
  destruct (to_numeric_text bib s); [eauto|discriminate].
Qed.

Lemma to_numeric_numerica_id (bib : Bibliotecas) (s : list cell) :
  numerica s = true -> to_numeric bib s = Ok s.
Proof.
  unfold numerica, to_numeric.
  induction s as [|c s IH]; simpl; [reflexivity|].
  rewrite andb_true_iff; intros [Hc Hs].
  destruct c as [t|f]; [discriminate|]. simpl.
  rewrite (IH Hs); reflexivity.
Qed.

Lemma converter_coluna_total (bib : Bibliotecas) (k : string) (s : list cell) :
  convertivel bib (k, s) = true ->
  exists c, converter_coluna bib (strip k, s) = Ok c.
Proof.
  unfold convertivel, converter_coluna, a_converter; cbn [fst snd].
  destruct (in_list (strip k) colunas_chave); cbn [negb orb]; [eauto|].
  rewrite forallb_forall; intros H.
  destruct (mapM_total (to_numeric_cell bib) s) as [s' Hs'].
  - intros c Hc. apply to_numeric_cell_convertivel.
    specialize (H _ Hc). destruct (nao_numerico bib c); [discriminate|reflexivity].
  - unfold to_numeric; rewrite Hs'; simpl; eauto.
Qed.

Lemma verificar_colunas_Ok (df : DataFrame) (u : unit) :
  verificar_colunas colunas_chave df = Ok u ->
  in_list "ingrediente" (columns df) = true /\
  in_list "quantidade" (columns df) = true.
Proof.
  unfold colunas_chave; cbn [verificar_colunas].
  destruct (in_list "ingrediente" (columns df)); [|discriminate].
  destruct (in_list "quantidade" (columns df)); [auto|discriminate].
Qed.

(** What a treated food table looks like. *)
Lemma tratar_alimentos_Ok (bib : Bibliotecas) (lido dados_alimentos : DataFrame) :
  tratar_alimentos bib lido = Ok dados_alimentos ->
  nrows dados_alimentos = nrows lido /\
  in_list "ingrediente" (columns dados_alimentos) = true /\
  in_list "quantidade" (columns dados_alimentos) = true /\
  Forall2 (fun lida c => converter_coluna bib (strip (fst lida), snd lida) = Ok c)
          (cols lido) (cols dados_alimentos) /\
  columns dados_alimentos = map strip (columns lido).
Proof.
  unfold tratar_alimentos; intros H.
  apply bind_Ok in H as (u & Hu & H).
  apply verificar_colunas_Ok in Hu as [Hi Hq].
  unfold converter_numericas in H.
  apply bind_Ok in H as (cs & Hcs & H); inversion H; subst; clear H; cbn [nrows cols].
  unfold strip_columns in Hcs; cbn [cols] in Hcs.
  apply mapM_map_Forall2 in Hcs.
  assert (Hcols : map (@fst string (list cell)) cs = map strip (columns lido)).
  { unfold columns. clear Hi Hq.
    induction Hcs as [|[k s] c l l' Hc Hcs IH]; simpl; [reflexivity|].
    rewrite IH. destruct (converter_coluna_Ok _ _ _ _ Hc) as [-> _]. reflexivity. }
  rewrite columns_strip_columns in Hi, Hq.
  unfold columns at 1 2 3; cbn [cols]. rewrite Hcols.
  repeat split; assumption.
Qed.

(** X4.  With both files readable, the stripped labels all distinct, both
    key columns among them, and every other cell a number or a text that
    parses, the loader returns: the nutrient table exactly as it was read
    (it is neither checked nor converted), and a food table with as many
    lines as the one read and the stripped labels in the order read. *)
Theorem carregar_total (bib : Bibliotecas) (fs : sistema_de_arquivos)
    (nome_nutrientes nome_alimentos : string) (fn fa : arquivo)
    (dados_nutrientes lido : DataFrame) :
  fs nome_nutrientes = Some fn ->
  fs nome_alimentos = Some fa ->
  lido_utf_8 fn = Ok dados_nutrientes ->
  alimentos_lidos_de fa = Ok lido ->
  sem_repetidos (map strip (columns lido)) = true ->
  in_list "ingrediente" (map strip (columns lido)) = true ->
  in_list "quantidade" (map strip (columns lido)) = true ->
  forallb (convertivel bib) (cols lido) = true ->
  exists dados_alimentos,
    fst (carregar_dados_csv bib fs nome_nutrientes nome_alimentos [])
      = Ok (dados_nutrientes, dados_alimentos) /\
    nrows dados_alimentos = nrows lido /\
    columns dados_alimentos = map strip (columns lido).
Proof.
  intros Hn Ha Hnut Hl _ Hi Hq Hconv.
  rewrite (carregar_com_arquivos bib fs _ _ fn fa dados_nutrientes lido Hn Ha Hnut Hl).
  cbn [fst].
  destruct (tratar_alimentos bib lido) as [alim|e] eqn:E.
  - exists alim. destruct (tratar_alimentos_Ok _ _ _ E) as (Hr & _ & _ & _ & Hc). auto.
  - exfalso. unfold tratar_alimentos in E.
    rewrite <- columns_strip_columns in Hi, Hq.
    rewrite (verificar_colunas_chave bib _ Hi Hq) in E; cbn [bind] in E.
    unfold converter_numericas in E.
    destruct (mapM_total (converter_coluna bib) (cols (strip_columns lido))) as [cs Hcs].
    + intros c Hc. unfold strip_columns in Hc; cbn [cols] in Hc.
      apply in_map_iff in Hc as ([k s] & <- & Hks). cbn [fst snd].
      apply converter_coluna_total.
      rewrite forallb_forall in Hconv; exact (Hconv _ Hks).
    + rewrite Hcs in E; discriminate.
Qed.

Lemma carregar_total_witness :
  exists dados_alimentos,
    fst (carregar_dados_csv Exemplo.bib (Casos.fs_de Casos.arq_nutrientes Casos.arq_latin1)
                            "nutrientes.csv" "ingrediente.csv" [])
      = Ok (Exemplo.nutrientes, dados_alimentos) /\
    nrows dados_alimentos = nrows Exemplo.alimentos_lidos /\
    columns dados_alimentos = map strip (columns Exemplo.alimentos_lidos).
Proof.
  apply (carregar_total Exemplo.bib _ "nutrientes.csv" "ingrediente.csv"
           Casos.arq_nutrientes Casos.arq_latin1
           Exemplo.nutrientes Exemplo.alimentos_lidos); reflexivity.
Defined.

(** X5.  Treating a food table that has already been treated changes
    nothing: its labels are already stripped and its numeric columns pass
    through [pd.to_numeric] as they are. *)
Theorem tratar_alimentos_idempotent (bib : Bibliotecas)
    (lido dados_alimentos : DataFrame) :
  tratar_alimentos bib lido = Ok dados_alimentos ->
  tratar_alimentos bib dados_alimentos = Ok dados_alimentos.
Proof.
  intros H.
  destruct (tratar_alimentos_Ok _ _ _ H) as (_ & Hi & Hq & HF & _).
  assert (Hinv : Forall (fun c => strip (fst c) = fst c /\
                                  converter_coluna bib c = Ok c)
                        (cols dados_alimentos)).
  { clear Hi Hq H.
    induction HF as [|[k s] c l l' Hc HF IH]; constructor; [|assumption].
    cbn [fst snd] in Hc.
    pose proof (converter_coluna_Ok _ _ _ _ Hc) as [Hfst Hsnd].
    split; [rewrite Hfst; apply strip_idempotent|].
    unfold converter_coluna. rewrite Hfst.
    unfold a_converter in Hsnd; cbn [fst] in Hsnd.
    destruct (in_list (strip k) colunas_chave); cbn [negb] in Hsnd; [reflexivity|].
    destruct Hsnd as [_ Hnum].
    rewrite (to_numeric_numerica_id _ _ Hnum); cbn [bind].
    rewrite <- Hfst. destruct c; reflexivity. }
  assert (Hstrip : strip_columns dados_alimentos = dados_alimentos).
  { unfold strip_columns. destruct dados_alimentos as [n cs]; cbn [nrows cols] in *.
    f_equal. clear Hi Hq HF H.
    induction Hinv as [|[k s] l [Hk _] _ IH]; simpl; [reflexivity|].
    cbn [fst] in Hk. rewrite Hk, IH; reflexivity. }
  unfold tratar_alimentos. rewrite Hstrip.
  rewrite (verificar_colunas_chave bib _ Hi Hq); cbn [bind].
  unfold converter_numericas.
  assert (Hm : mapM (converter_coluna bib) (cols dados_alimentos)
               = Ok (cols dados_alimentos)).
  { clear Hstrip Hi Hq HF H.
    induction Hinv as [|c l [_ Hc] _ IH]; simpl; [reflexivity|].
    rewrite Hc, IH; reflexivity. }
  rewrite Hm; cbn [bind]. destruct dados_alimentos; reflexivity.
Qed.

Lemma tratar_alimentos_idempotent_witness :
  tratar_alimentos Exemplo.bib Exemplo.alimentos = Ok Exemplo.alimentos.
Proof.
  apply (tratar_alimentos_idempotent Exemplo.bib Exemplo.alimentos_lidos
           Exemplo.alimentos).
  vm_compute; reflexivity.
Defined.

(** * Further properties of the formulation and of the report *)

Lemma getitem_list_inv (df : DataFrame) (labels : list cell) (sel : DataFrame) :
  getitem_list df labels = Ok sel ->
  sel = mkFrame (nrows df) (selecionadas df labels) /\
  Forall (fun c => find_label df c <> None) labels.
Proof.
  unfold getitem_list, selecionadas.
  destruct (filter _ labels) as [|m ms] eqn:E; [|discriminate].
  intros H; inversion H; subst; clear H; split; [reflexivity|].
  rewrite Forall_forall; intros c Hc Hnone.
  assert (Hin : In c (filter (fun c => match find_label df c with
                                       | Some _ => false | None => true end) labels)).
  { apply filter_In; split; [assumption|]. rewrite Hnone; reflexivity. }
  rewrite E in Hin; contradiction.
Qed.

(** The steps of a formulation that succeeded. *)
Lemma formular_Ok (dados_nutrientes dados_alimentos : DataFrame) (lp : LP)
      (nomes_nutrientes nomes_alimentos : list cell) :
  formular dados_nutrientes dados_alimentos
    = Ok (lp, nomes_nutrientes, nomes_alimentos) ->
  exists minimos,
    getitem dados_alimentos "preco" = Ok (lp_c lp) /\
    getitem dados_nutrientes "nutrientes" = Ok nomes_nutrientes /\
    getitem dados_alimentos "ingrediente" = Ok nomes_alimentos /\
    getitem dados_nutrientes "minimo" = Ok minimos /\
    neg_vector minimos = Ok (lp_b_ub lp) /\
    Forall (fun c => find_label dados_alimentos c <> None) nomes_nutrientes /\
    neg_array (transpose (to_numpy
                 (mkFrame (nrows dados_alimentos)
                          (selecionadas dados_alimentos nomes_nutrientes))))
      = Ok (lp_A_ub lp).
Proof.
  unfold formular; intros H.
  apply bind_Ok in H as (c & Hc & H).
  apply bind_Ok in H as (nn & Hnn & H).
  apply bind_Ok in H as (na & Hna & H).
  apply bind_Ok in H as (mins & Hm & H).
  apply bind_Ok in H as (b & Hb & H).
  apply bind_Ok in H as (sel & Hsel & H).
  apply bind_Ok in H as (A & HA & H).
  inversion H; subst; clear H; cbn [lp_c lp_A_ub lp_b_ub].
  apply getitem_list_inv in Hsel as [-> Hpres].
  exists mins; repeat split; assumption.
Qed.

Lemma neg_linha (col : list cell) (linha : list float) :
  mapM neg_cell col = Ok linha ->
  numerica col = true /\
  map (fun e => PrimFloat.mul e menos_um) linha = numeros col.
Proof.
  revert linha; induction col as [|c col IH]; simpl; intros linha H.
  - inversion H; split; reflexivity.
  - apply bind_Ok in H as (r & Hr & H).
    apply bind_Ok in H as (rs & Hrs & H).
    inversion H; subst linha; clear H.
    apply neg_cell_Ok in Hr as (v & -> & ->).
    destruct (IH _ Hrs) as [Hnum Hmap].
    split; [exact Hnum|].
    simpl. rewrite mul_menos_um, opp_involutive, Hmap; reflexivity.
Qed.

(** X6.  The minimums shown in the report are the cells of the column
    [minimo] themselves: negating them for the solver and multiplying by
    [-1] for the report gives back every cell, the same binary64 value
    (no rounding, zeros keep their sign, a NaN stays a NaN). *)
Theorem minimo_roundtrip (dados_nutrientes dados_alimentos : DataFrame) (lp : LP)
    (nomes_nutrientes nomes_alimentos : list cell) :
  formular dados_nutrientes dados_alimentos
    = Ok (lp, nomes_nutrientes, nomes_alimentos) ->
  getitem dados_nutrientes "minimo" = Ok (map CNum (minimo (lp_b_ub lp))).
Proof.
  intros H. destruct (formular_Ok _ _ _ _ _ H) as (mins & _ & _ & _ & Hm & Hb & _).
  rewrite Hm; f_equal.
  destruct (neg_linha _ _ Hb) as [Hnum Hmap].
  unfold minimo, scale_vector. rewrite Hmap.
  clear Hb Hm Hmap. unfold numerica in Hnum.
  induction mins as [|c mins IH]; simpl in *; [reflexivity|].
  apply andb_true_iff in Hnum as [Hc Hs].
  destruct c; [discriminate|]. rewrite <- (IH Hs); reflexivity.
Qed.

Lemma minimo_roundtrip_witness :
  getitem Exemplo.nutrientes "minimo"
  = Ok (map CNum (minimo (lp_b_ub Exemplo.lp))).
Proof.
  apply (minimo_roundtrip Exemplo.nutrientes Exemplo.alimentos Exemplo.lp
           [CStr "Protein"] [CStr "Rice"; CStr "Beans"]).
  vm_compute; reflexivity.
Defined.

(** X7.  On a food table whose columns all have the length of its index
    and for a solution vector of that length, the totals of the report are
    computed from the food table's own numbers: the total of nutrient [i]
    is [np.dot] of the column of that nutrient with [x]. *)
Theorem consumido_da_tabela (dados_nutrientes dados_alimentos : DataFrame) (lp : LP)
    (nomes_nutrientes nomes_alimentos : list cell) (xs : list float) :
  formular dados_nutrientes dados_alimentos
    = Ok (lp, nomes_nutrientes, nomes_alimentos) ->
  wf_frame dados_alimentos ->
  length xs = nrows dados_alimentos ->
  exists cons,
    consumido (lp_A_ub lp) xs = Ok cons /\
    length cons = length nomes_nutrientes /\
    forall i nome, nth_error nomes_nutrientes i = Some nome ->
      exists k col,
        find_label dados_alimentos nome = Some (k, col) /\
        numerica col = true /\
        nth_error cons i = Some (dot (numeros col) xs).
Proof.
  intros H Hwf Hlen.
  destruct (formular_Ok _ _ _ _ _ H) as (mins & _ & _ & _ & _ & _ & Hpres & HA).
  destruct (neg_array_linhas _ _ _ HA) as (H0 & H1 & Hl & _).
  destruct (selecionadas_nth _ _ Hpres) as [Hsel_len Hsel_nth].
  unfold consumido, matvec; cbn [scale_array shape1 linhas].
  rewrite H1, Hlen, Nat.eqb_refl.
  eexists; split; [reflexivity|].
  split; [rewrite !length_map; congruence|].
  intros i nome Hi.
  destruct (Hsel_nth _ _ Hi) as ([k col] & Hfind & Hnth).
  exists k, col; split; [assumption|].
  pose proof (find_label_wf _ _ _ _ Hwf Hfind) as Hcol.
  unfold neg_array in HA.
  apply bind_Ok in HA as (ls & Hls & HA).
  rewrite transpose_to_numpy in Hls.
  inversion HA; subst; clear HA; cbn [linhas].
  destruct (mapM_Ok_nth _ _ _ Hls) as [_ Hrows].
  destruct (Hrows i (map (fun j => nth j col nan_cell) (seq 0 (nrows dados_alimentos))))
    as (linha & Hlinha & Hi').
  { rewrite nth_error_map, Hnth; reflexivity. }
  rewrite <- Hcol, map_nth_seq in Hlinha.
  destruct (neg_linha _ _ Hlinha) as [Hnum Hmap].
  split; [assumption|].
  rewrite !nth_error_map, Hi'; cbn [option_map].
  rewrite Hmap; reflexivity.
Qed.

Lemma consumido_da_tabela_witness :
  exists cons,
    consumido (lp_A_ub Exemplo.lp) [0%float; 0.5%float] = Ok cons /\
    length cons = length [CStr "Protein"] /\
    forall i nome, nth_error [CStr "Protein"] i = Some nome ->
      exists k col,
        find_label Exemplo.alimentos nome = Some (k, col) /\
        numerica col = true /\
        nth_error cons i = Some (dot (numeros col) [0%float; 0.5%float]).
Proof.
  apply (consumido_da_tabela Exemplo.nutrientes Exemplo.alimentos Exemplo.lp
           [CStr "Protein"] [CStr "Rice"; CStr "Beans"] [0%float; 0.5%float]).
  - vm_compute; reflexivity.
  - repeat constructor.
  - reflexivity.
Defined.

Lemma is_nan_Prim2SF (f : float) :
  PrimFloat.is_nan f = true -> Prim2SF f = S754_nan.
Proof.
  unfold PrimFloat.is_nan. rewrite eqb_spec. unfold SFeqb.
  destruct (Prim2SF f) as [s|s| |s m e] eqn:E; try reflexivity;
    rewrite SFcompare_refl by discriminate; discriminate.
Qed.

Lemma SFcompare_nan_r (v : spec_float) : SFcompare v S754_nan = None.
Proof. destruct v; reflexivity. Qed.

(** X8.  A total or a minimum that is NaN is never reported as met: the
    tag is "FALHA". *)
Theorem atendido_nan (c m : float) :
  PrimFloat.is_nan c = true \/ PrimFloat.is_nan m = true ->
  atendido c m = "FALHA".
Proof.
  intros H. apply atendido_FALHA.
  rewrite leb_spec, sub_spec. unfold SFleb.
  destruct H as [H|H]; apply is_nan_Prim2SF in H; rewrite H.
  - rewrite SFcompare_nan_r; reflexivity.
  - reflexivity.
Qed.

Lemma atendido_nan_witness :
  atendido PrimFloat.nan 50%float = "FALHA".
Proof.
  apply (atendido_nan PrimFloat.nan 50%float). left; reflexivity.
Defined.

(** X9.  The column [quantidade] is looked up only when a food is bought.
    On a food table without it, a solution vector that buys nothing gives
    the empty list of purchases, and one that buys something makes the
    function leave with the [KeyError] of that label. *)
Theorem melhor_solucao_sem_quantidade (bib : Bibliotecas) (dados_alimentos : DataFrame)
    (ingredientes nomes_alimentos : list cell) (xs : list float) :
  find_col "ingrediente" (cols dados_alimentos) = Some ingredientes ->
  find_col "quantidade" (cols dados_alimentos) = None ->
  length xs <= length nomes_alimentos ->
  melhor_solucao bib dados_alimentos nomes_alimentos xs
  = if existsb (PrimFloat.ltb tol) xs
    then Raise (KeyError "'quantidade'")
    else Ok [].
Proof.
  intros Hi Hq. unfold melhor_solucao.
  replace (length xs <= length nomes_alimentos)
    with (0 + length xs <= length nomes_alimentos) by reflexivity.
  generalize 0 as i.
  induction xs as [|valor xs IH]; intros i Hlen; simpl; [reflexivity|].
  simpl in Hlen.
  destruct (PrimFloat.ltb tol valor) eqn:Ev; simpl.
  - unfold item.
    destruct (nth_error nomes_alimentos i) as [nome|] eqn:En;
      [|apply nth_error_None in En; lia].
    cbn [bind]. unfold unidade_de, getitem. rewrite Hi, Hq. reflexivity.
  - apply IH. lia.
Qed.

Lemma melhor_solucao_sem_quantidade_witness :
  melhor_solucao Exemplo.bib Casos.alimentos_sem_quantidade
                 [CStr "Rice"; CStr "Beans"] [0%float; 0.5%float]
  = if existsb (PrimFloat.ltb tol) [0%float; 0.5%float]
    then Raise (KeyError "'quantidade'")
    else Ok [].
Proof.
  apply (melhor_solucao_sem_quantidade Exemplo.bib Casos.alimentos_sem_quantidade
           [CStr "Rice"; CStr "Beans"] [CStr "Rice"; CStr "Beans"]
           [0%float; 0.5%float]).
  - reflexivity.
  - reflexivity.
  - simpl; lia.
Defined.

(** X10.  A solution vector whose length is not the number of columns of
    [A_ub] never gives a report: the function raises, and when the list of
    purchases could be built the exception is the [ValueError] of
    [np.dot]. *)
Theorem montar_relatorio_forma (bib : Bibliotecas) (dados_alimentos : DataFrame)
    (lp : LP) (nomes_nutrientes nomes_alimentos : list cell) (r : OptimizeResult) :
  length (x r) <> shape1 (lp_A_ub lp) ->
  exists e,
    montar_relatorio bib dados_alimentos lp nomes_nutrientes nomes_alimentos r
      = Raise e /\
    (forall compras,
        melhor_solucao bib dados_alimentos nomes_alimentos (x r) = Ok compras ->
        is_ValueError e = true).
Proof.
  intros Hne. unfold montar_relatorio.
  destruct (melhor_solucao bib dados_alimentos nomes_alimentos (x r)) as [compras|e];
    cbn [bind].
  - unfold consumido, matvec; cbn [scale_array shape1].
    destruct (Nat.eqb (shape1 (lp_A_ub lp)) (length (x r))) eqn:E.
    + apply Nat.eqb_eq in E; congruence.
    + cbn [bind]. eexists; split; [reflexivity|]. intros _ _; reflexivity.
  - exists e; split; [reflexivity|]. intros compras H; discriminate.
Qed.

Lemma montar_relatorio_forma_witness :
  exists e,
    montar_relatorio Exemplo.bib Exemplo.alimentos Exemplo.lp
                     [CStr "Protein"] [CStr "Rice"; CStr "Beans"]
                     (mkResult true 0 "" [0.5%float] 1%float)
      = Raise e /\
    (forall compras,
        melhor_solucao Exemplo.bib Exemplo.alimentos [CStr "Rice"; CStr "Beans"]
                       (x (mkResult true 0 "" [0.5%float] 1%float)) = Ok compras ->
        is_ValueError e = true).
Proof.
  apply (montar_relatorio_forma Exemplo.bib Exemplo.alimentos Exemplo.lp
           [CStr "Protein"] [CStr "Rice"; CStr "Beans"]
           (mkResult true 0 "" [0.5%float] 1%float)).
  simpl; lia.
Defined.

Lemma select_nil_iff (f : cell -> bool) (ingredientes quantidades : list cell) :
  length quantidades = length ingredientes ->
  (select (map f ingredientes) quantidades = []
   <-> forall c, In c ingredientes -> f c = false).
Proof.
  revert quantidades; induction ingredientes as [|c0 ingr IH];
    intros [|q0 quant] Hlen; simpl in *; try discriminate.
  - split; [intros _ c []|reflexivity].
  - injection Hlen as Hlen. specialize (IH _ Hlen).
    destruct (f c0) eqn:E.
    + split; [discriminate|]. intros H. rewrite (H c0) in E; auto; discriminate.
    + rewrite IH. split.
      * intros H c [<-|Hc]; auto.
      * intros H c Hc; auto.
Qed.

Lemma cell_eqb_nan (c : cell) (f : float) :
  PrimFloat.is_nan f = true -> cell_eqb c (CNum f) = false.
Proof.
  intros H. destruct c as [s|g]; simpl; [reflexivity|].
  rewrite eqb_spec, (is_nan_Prim2SF _ H). unfold SFeqb.
  rewrite SFcompare_nan_r; reflexivity.
Qed.

(** X11.  On a food table whose columns [ingrediente] and [quantidade]
    have the same length, looking up the unit of a name fails with an
    [IndexError] exactly when no line carries that name; a name that is
    NaN (an empty cell) is carried by no line, not even its own. *)
Theorem unidade_de_sem_linha (dados_alimentos : DataFrame)
    (ingredientes quantidades : list cell) (nome : cell) :
  getitem dados_alimentos "ingrediente" = Ok ingredientes ->
  getitem dados_alimentos "quantidade" = Ok quantidades ->
  length quantidades = length ingredientes ->
  ((forall c, In c ingredientes -> cell_eqb c nome = false) <->
   unidade_de dados_alimentos nome
     = Raise (IndexError "single positional indexer is out-of-bounds")) /\
  (forall f, nome = CNum f -> PrimFloat.is_nan f = true ->
     unidade_de dados_alimentos nome
       = Raise (IndexError "single positional indexer is out-of-bounds")).
Proof.
  intros Hi Hq Hlen.
  assert (Hiff : (forall c, In c ingredientes -> cell_eqb c nome = false) <->
                 unidade_de dados_alimentos nome
                 = Raise (IndexError "single positional indexer is out-of-bounds")).
  { unfold unidade_de. rewrite Hi, Hq; cbn [bind].
    rewrite <- (select_nil_iff (fun c => cell_eqb c nome) _ _ Hlen).
    destruct (select _ quantidades); split; intros H;
      try reflexivity; discriminate. }
  split; [exact Hiff|].
  intros f -> Hnan. apply Hiff. intros c _. apply cell_eqb_nan; assumption.
Qed.

Lemma unidade_de_sem_linha_witness :
  ((forall c, In c [CStr "Rice"; CStr "Beans"] -> cell_eqb c (CStr "Corn") = false) <->
   unidade_de Exemplo.alimentos (CStr "Corn")
     = Raise (IndexError "single positional indexer is out-of-bounds")) /\
  (forall f, CStr "Corn" = CNum f -> PrimFloat.is_nan f = true ->
     unidade_de Exemplo.alimentos (CStr "Corn")
       = Raise (IndexError "single positional indexer is out-of-bounds")).
Proof.
  apply (unidade_de_sem_linha Exemplo.alimentos
           [CStr "Rice"; CStr "Beans"] [CStr "kg"; CStr "saco"] (CStr "Corn"));
    reflexivity.
Defined.

Lemma select_In (f : cell -> bool) (ingredientes quantidades : list cell) (c : cell) :
  length quantidades = length ingredientes ->
  In c ingredientes -> f c = true ->
  exists u resto, select (map f ingredientes) quantidades = u :: resto.
Proof.
  intros Hlen Hin Hf.
  destruct (select (map f ingredientes) quantidades) as [|u resto] eqn:E; [|eauto].
  destruct (select_nil_iff f _ _ Hlen) as [Hnil _].
  rewrite (Hnil E _ Hin) in Hf; discriminate.
Qed.

Lemma find_col_wf (df : DataFrame) (k : string) (s : list cell) :
  wf_frame df -> find_col k (cols df) = Some s -> length s = nrows df.
Proof.
  unfold wf_frame; intros Hwf H. apply find_col_In in H.
  rewrite Forall_forall in Hwf. exact (Hwf _ H).
Qed.

Lemma getitem_wf (df : DataFrame) (k : string) (s : list cell) :
  wf_frame df -> getitem df k = Ok s -> length s = nrows df.
Proof.
  unfold getitem; intros Hwf H.
  destruct (find_col k (cols df)) as [s'|] eqn:E; inversion H; subst.
  exact (find_col_wf _ _ _ Hwf E).
Qed.

Lemma melhor_solucao_desde_total (bib : Bibliotecas) (dados_alimentos : DataFrame)
      (nomes_alimentos : list cell) :
  (forall nome, In nome nomes_alimentos ->
                exists u, unidade_de dados_alimentos nome = Ok u) ->
  forall (xs : list float) (i : nat),
    i + length xs <= length nomes_alimentos ->
    exists l, melhor_solucao_desde bib dados_alimentos nomes_alimentos i xs = Ok l.
Proof.
  intros Hun. induction xs as [|valor xs IH]; intros i Hlen; simpl in *; [eauto|].
  destruct (IH (S i)) as [resto Hresto]; [lia|].
  destruct (PrimFloat.ltb tol valor); [|eauto].
  unfold item.
  destruct (nth_error nomes_alimentos i) as [nome|] eqn:En;
    [|apply nth_error_None in En; lia].
  cbn [bind].
  destruct (Hun nome (nth_error_In _ _ En)) as [u ->]; cbn [bind].
  rewrite Hresto; cbn [bind]. eauto.
Qed.

Lemma verificacao_desde_total (cons mins : list float) :
  forall (nomes : list cell) (i : nat),
    i + length nomes <= length cons ->
    i + length nomes <= length mins ->
    exists l, verificacao_desde cons mins i nomes = Ok l.
Proof.
  induction nomes as [|n nomes IH]; intros i Hc Hm; simpl in *; [eauto|].
  unfold item.
  destruct (nth_error cons i) as [ci|] eqn:Eci; [|apply nth_error_None in Eci; lia].
  destruct (nth_error mins i) as [mi|] eqn:Emi; [|apply nth_error_None in Emi; lia].
  cbn [bind].
  destruct (IH (S i)) as [resto ->]; [lia|lia|]. cbn [bind]. eauto.
Qed.

(** X12.  When the formulation succeeded on two tables whose columns all
    have the length of their index, the food table has a column
    [quantidade], its names are texts, and the solver's vector has one
    entry per food, the report of a successful answer is always produced:
    it carries the solver's objective value and one line per nutrient. *)
Theorem relatar_total (bib : Bibliotecas) (dados_nutrientes dados_alimentos : DataFrame)
    (lp : LP) (nomes_nutrientes nomes_alimentos quantidades : list cell)
    (r : OptimizeResult) :
  formular dados_nutrientes dados_alimentos
    = Ok (lp, nomes_nutrientes, nomes_alimentos) ->
  wf_frame dados_nutrientes ->
  wf_frame dados_alimentos ->
  getitem dados_alimentos "quantidade" = Ok quantidades ->
  forallb is_text nomes_alimentos = true ->
  length (x r) = nrows dados_alimentos ->
  success r = true ->
  exists rel,
    montar_relatorio bib dados_alimentos lp nomes_nutrientes nomes_alimentos r = Ok rel /\
    relatar bib dados_alimentos lp nomes_nutrientes nomes_alimentos r
      = Ok (texto_relatorio bib rel ++ nl) /\
    rel_custo rel = fun_ r /\
    length (rel_nutrientes rel) = length nomes_nutrientes.
Proof.
  intros H Hwfn Hwfa Hq Htext Hlen Hs.
  destruct (formular_Ok _ _ _ _ _ H) as (mins & _ & Hnn & Hna & Hm & Hb & Hpres & HA).
  pose proof (getitem_wf _ _ _ Hwfa Hna) as Lna.
  pose proof (getitem_wf _ _ _ Hwfa Hq) as Lq.
  pose proof (getitem_wf _ _ _ Hwfn Hnn) as Lnn.
  pose proof (getitem_wf _ _ _ Hwfn Hm) as Lm.
  destruct (neg_vector_nth _ _ Hb) as [Lb _].
  destruct (neg_array_linhas _ _ _ HA) as (_ & H1 & Hl & _).
  destruct (selecionadas_nth _ _ Hpres) as [Lsel _].
  destruct (melhor_solucao_desde_total bib dados_alimentos nomes_alimentos) with
    (xs := x r) (i := 0) as [compras Hcompras].
  { intros nome Hin. unfold unidade_de. rewrite Hna, Hq; cbn [bind].
    rewrite forallb_forall in Htext. specialize (Htext _ Hin).
    destruct nome as [s|f]; [|discriminate].
    destruct (select_In (fun c => cell_eqb c (CStr s)) nomes_alimentos quantidades
                (CStr s)) as (u & resto & ->); [congruence|assumption| |eauto].
    simpl. apply String.eqb_refl. }
  { simpl; lia. }
  destruct (verificacao_desde_total
              (map (fun l => dot l (x r))
                   (map (map (fun e => PrimFloat.mul e menos_um)) (linhas (lp_A_ub lp))))
              (minimo (lp_b_ub lp)) nomes_nutrientes 0) as [ln Hln].
  { rewrite !length_map. simpl. lia. }
  { unfold minimo, scale_vector. rewrite length_map. simpl. lia. }
  assert (Hrel : montar_relatorio bib dados_alimentos lp nomes_nutrientes
                                  nomes_alimentos r
                 = Ok (mkRelatorio (fun_ r) compras ln)).
  { unfold montar_relatorio, melhor_solucao. rewrite Hcompras; cbn [bind].
    unfold consumido, matvec; cbn [scale_array shape1 linhas].
    rewrite H1, Hlen, Nat.eqb_refl; cbn [bind].
    unfold verificacao. rewrite Hln; reflexivity. }
  exists (mkRelatorio (fun_ r) compras ln).
  split; [exact Hrel|]. split; [|split; [reflexivity|]].
  - unfold relatar. rewrite Hs, Hrel; reflexivity.
  - cbn [rel_nutrientes].
    destruct (verificacao_desde_spec _ _ _ _ _ Hln) as [Hlen' _]. exact Hlen'.
Qed.

Lemma relatar_total_witness :
  exists rel,
    montar_relatorio Exemplo.bib Exemplo.alimentos Exemplo.lp
                     [CStr "Protein"] [CStr "Rice"; CStr "Beans"] Exemplo.resposta
      = Ok rel /\
    relatar Exemplo.bib Exemplo.alimentos Exemplo.lp
            [CStr "Protein"] [CStr "Rice"; CStr "Beans"] Exemplo.resposta
      = Ok (texto_relatorio Exemplo.bib rel ++ nl) /\
    rel_custo rel = fun_ Exemplo.resposta /\
    length (rel_nutrientes rel) = length [CStr "Protein"].
Proof.
  apply (relatar_total Exemplo.bib Exemplo.nutrientes Exemplo.alimentos Exemplo.lp
           [CStr "Protein"] [CStr "Rice"; CStr "Beans"] [CStr "kg"; CStr "saco"]
           Exemplo.resposta).
  - vm_compute; reflexivity.
  - repeat constructor.
  - repeat constructor.
  - reflexivity.
  - reflexivity.
  - reflexivity.
  - reflexivity.
Defined.

Lemma find_col_Permutation (k : string) (cs cs' : list (string * list cell)) :
  Permutation cs cs' ->
  NoDup (map (@fst string (list cell)) cs) ->
  find_col k cs = find_col k cs'.
Proof.
  induction 1 as [|[n s] l l' Hp IH|[n s] [n' s'] l|l l' l'' Hp1 IH1 Hp2 IH2];
    intros Hnd; simpl in *.
  - reflexivity.
  - inversion Hnd; subst. destruct (String.eqb n k); [reflexivity|auto].
  - inversion Hnd as [|? ? Hnotin _]; subst.
    destruct (String.eqb n k) eqn:E1, (String.eqb n' k) eqn:E2; try reflexivity.
    apply String.eqb_eq in E1, E2; subst. exfalso; apply Hnotin; left; reflexivity.
  - rewrite IH1 by assumption. apply IH2.
    exact (Permutation_NoDup (Permutation_map _ Hp1) Hnd).
Qed.

Lemma getitem_ext (a a' : DataFrame) (k : string) :
  (forall k, find_col k (cols a) = find_col k (cols a')) ->
  getitem a k = getitem a' k.
Proof. intros H; unfold getitem; rewrite H; reflexivity. Qed.

Lemma find_label_ext (a a' : DataFrame) (c : cell) :
  (forall k, find_col k (cols a) = find_col k (cols a')) ->
  find_label a c = find_label a' c.
Proof.
  intros H; unfold find_label. destruct (label_text c); [rewrite H|]; reflexivity.
Qed.

Lemma getitem_list_ext (a a' : DataFrame) (labels : list cell) :
  (forall k, find_col k (cols a) = find_col k (cols a')) ->
  nrows a = nrows a' ->
  getitem_list a labels = getitem_list a' labels.
Proof.
  intros H Hn; unfold getitem_list.
  rewrite (filter_ext _ (fun c => match find_label a' c with
                                  | Some _ => false | None => true end))
    by (intros c; rewrite (find_label_ext a a' c H); reflexivity).
  rewrite (flat_map_ext _ (fun c => match find_label a' c with
                                    | Some kc => [kc] | None => [] end))
    by (intros c; rewrite (find_label_ext a a' c H); reflexivity).
  rewrite Hn; reflexivity.
Qed.

Lemma formular_ext (dados_nutrientes a a' : DataFrame) :
  (forall k, find_col k (cols a) = find_col k (cols a')) ->
  nrows a = nrows a' ->
  formular dados_nutrientes a = formular dados_nutrientes a'.
Proof.
  intros H Hn; unfold formular.
  rewrite !(getitem_ext a a' _ H).
  destruct (getitem a' "preco"); [|reflexivity]; cbn [bind].
  destruct (getitem dados_nutrientes "nutrientes") as [nn|]; [|reflexivity]; cbn [bind].
  rewrite (getitem_list_ext a a' nn H Hn); reflexivity.
Qed.

Lemma melhor_solucao_desde_ext (bib : Bibliotecas) (a a' : DataFrame)
      (nomes : list cell) :
  (forall k, find_col k (cols a) = find_col k (cols a')) ->
  forall (xs : list float) (i : nat),
    melhor_solucao_desde bib a nomes i xs = melhor_solucao_desde bib a' nomes i xs.
Proof.
  intros H. induction xs as [|valor xs IH]; intros i; simpl; [reflexivity|].
  rewrite IH. destruct (PrimFloat.ltb tol valor); [|reflexivity].
  destruct (item nomes i) as [nome|]; [|reflexivity]; cbn [bind].
  unfold unidade_de. rewrite !(getitem_ext a a' _ H). reflexivity.
Qed.

(** X13.  The order of the columns of the food table does not matter: two
    food tables with the same index length whose columns, all of distinct
    labels, are a rearrangement of each other give the same output or the
    same exception. *)
Theorem resolver_ordem_colunas (bib : Bibliotecas)
    (dados_nutrientes a a' : DataFrame) :
  Permutation (cols a) (cols a') ->
  NoDup (columns a) ->
  nrows a = nrows a' ->
  resolver_problema_dieta_scipy bib dados_nutrientes a
  = resolver_problema_dieta_scipy bib dados_nutrientes a'.
Proof.
  intros Hp Hnd Hn.
  assert (H : forall k, find_col k (cols a) = find_col k (cols a'))
    by (intros k; apply find_col_Permutation; assumption).
  unfold resolver_problema_dieta_scipy.
  rewrite (formular_ext dados_nutrientes a a' H Hn).
  destruct (formular dados_nutrientes a') as [[[lp nn] na]|e]; [|reflexivity].
  cbn [bind].
  destruct (linprog bib (lp_c lp) (lp_A_ub lp) (lp_b_ub lp)) as [r|e]; [|reflexivity].
  cbn [bind]. unfold relatar, montar_relatorio, melhor_solucao.
  rewrite (melhor_solucao_desde_ext bib a a' na H). reflexivity.
Qed.

Lemma resolver_ordem_colunas_witness :
  resolver_problema_dieta_scipy Exemplo.bib Exemplo.nutrientes Exemplo.alimentos
  = resolver_problema_dieta_scipy Exemplo.bib Exemplo.nutrientes
                                  Casos.alimentos_permutados.
Proof.
  apply (resolver_ordem_colunas Exemplo.bib Exemplo.nutrientes
           Exemplo.alimentos Casos.alimentos_permutados).
  - simpl.
    apply (Permutation_trans
             (l' := [("Protein", [CNum 25%float; CNum 100%float]);
                     ("ingrediente", [CStr "Rice"; CStr "Beans"]);
                     ("quantidade", [CStr "kg"; CStr "saco"]);
                     ("preco", [CNum 2%float; CNum 3%float])])).
    + apply Permutation_sym.
      apply (Permutation_cons_append
               [("ingrediente", [CStr "Rice"; CStr "Beans"]);
                ("quantidade", [CStr "kg"; CStr "saco"]);
                ("preco", [CNum 2%float; CNum 3%float])]
               ("Protein", [CNum 25%float; CNum 100%float])).
    + apply perm_skip.
      apply (Permutation_rev
               [("ingrediente", [CStr "Rice"; CStr "Beans"]);
                ("quantidade", [CStr "kg"; CStr "saco"]);
                ("preco", [CNum 2%float; CNum 3%float])]).
  - repeat constructor; simpl; intuition discriminate.
  - reflexivity.
Defined.

Lemma neg_cell_Raise (c : cell) (e : exn) :
  neg_cell c = Raise e -> e = TypeError "bad operand type for unary -: 'str'".
Proof. destruct c; simpl; intros H; inversion H; reflexivity. Qed.

(** X14.  A text cell in a nutrient column of the food table is never
    taken for a number: when every column the formulation reads is there
    and the minimums are numbers, a text in line [j] of the column of a
    named nutrient makes the formulation raise a [TypeError]. *)
Theorem formular_texto_TypeError (dados_nutrientes dados_alimentos : DataFrame)
    (c nomes_nutrientes nomes_alimentos minimos : list cell)
    (nome : cell) (k s : string) (col : list cell) (j : nat) :
  getitem dados_alimentos "preco" = Ok c ->
  getitem dados_nutrientes "nutrientes" = Ok nomes_nutrientes ->
  getitem dados_alimentos "ingrediente" = Ok nomes_alimentos ->
  getitem dados_nutrientes "minimo" = Ok minimos ->
  numerica minimos = true ->
  Forall (fun n => find_label dados_alimentos n <> None) nomes_nutrientes ->
  In nome nomes_nutrientes ->
  find_label dados_alimentos nome = Some (k, col) ->
  nth_error col j = Some (CStr s) ->
  j < nrows dados_alimentos ->
  formular dados_nutrientes dados_alimentos
  = Raise (TypeError "bad operand type for unary -: 'str'").
Proof.
  intros Hc Hnn Hna Hm Hnum Hpres Hin Hfind Hj Hlt.
  unfold formular. rewrite Hc, Hnn, Hna, Hm; cbn [bind].
  destruct (neg_vector_total _ Hnum) as [b ->]; cbn [bind].
  rewrite (getitem_list_total _ _ Hpres); cbn [bind].
  unfold neg_array. rewrite transpose_to_numpy.
  destruct (selecionadas_nth _ _ Hpres) as [_ Hsel].
  apply In_nth_error in Hin as [i Hi].
  destruct (Hsel _ _ Hi) as (kc & Hkc & Hnth).
  assert (kc = (k, col)) by congruence; subst kc.
  apply nth_error_In in Hnth.
  destruct (mapM_Raise_In neg_cell
              (map (fun j => nth j col nan_cell) (seq 0 (nrows dados_alimentos)))
              (CStr s) (TypeError "bad operand type for unary -: 'str'"))
    as [e1 He1]; [|reflexivity|].
  { apply in_map_iff; exists j; split.
    - apply nth_error_nth; assumption.
    - apply in_seq; lia. }
  destruct (mapM_Raise_In (mapM neg_cell)
              (map (fun c0 : string * list cell =>
                      map (fun j => nth j (snd c0) nan_cell)
                          (seq 0 (nrows dados_alimentos)))
                   (selecionadas dados_alimentos nomes_nutrientes))
              (map (fun j => nth j col nan_cell) (seq 0 (nrows dados_alimentos)))
              e1) as [e2 He2]; [|assumption|].
  { apply in_map_iff; exists (k, col); split; [reflexivity|assumption]. }
  rewrite He2; cbn [bind]. f_equal.
  apply mapM_Raise_inv in He2 as (linha & _ & Hl).
  apply mapM_Raise_inv in Hl as (cel & _ & Hcel).
  exact (neg_cell_Raise _ _ Hcel).
Qed.

Lemma formular_texto_TypeError_witness :
  formular Exemplo.nutrientes Casos.alimentos_texto
  = Raise (TypeError "bad operand type for unary -: 'str'").
Proof.
  apply (formular_texto_TypeError Exemplo.nutrientes Casos.alimentos_texto
           [CNum 2%float; CNum 3%float] [CStr "Protein"]
           [CStr "Rice"; CStr "Beans"] [CNum 50%float]
           (CStr "Protein") "Protein" "muito"
           [CNum 25%float; CStr "muito"] 1).
  - reflexivity.
  - reflexivity.
  - reflexivity.
  - reflexivity.
  - reflexivity.
  - repeat constructor; discriminate.
  - left; reflexivity.
  - reflexivity.
  - reflexivity.
  - simpl; lia.
Defined.

(** * The driver *)

(** X15.  When an input file is missing, the program prints the error
    text for the [FileNotFoundError] of the loader followed by the fixed
    hint, and nothing else; it has read no file. *)
Theorem principal_sem_arquivo (str_exc : exn -> string) (bib : Bibliotecas)
    (fs : sistema_de_arquivos) :
  fs "nutrientes.csv" = None \/ fs "ingrediente.csv" = None ->
  fst (principal str_exc bib fs)
  = nl ++ "Ocorreu um erro: "
       ++ str_exc (FileNotFoundError (msg_arquivos "nutrientes.csv" "ingrediente.csv"))
       ++ nl ++ msg_critico ++ nl /\
  forallb (fun e => negb (is_read e)) (snd (principal str_exc bib fs)) = true.
Proof.
  intros H. unfold principal, carregar_dados_csv, falta_arquivo, bindIO,
    os_path_exists, raise, ret.
  destruct (fs "nutrientes.csv") as [fn|] eqn:En; cbn -[msg_arquivos msg_critico nl].
  - destruct H as [H|H]; [discriminate|]. rewrite H.
    cbn -[msg_arquivos msg_critico nl]. split; reflexivity.
  - split; reflexivity.
Qed.

Lemma principal_sem_arquivo_witness :
  fst (principal Casos.str_exc Exemplo.bib Exemplo.fs_vazio)
  = nl ++ "Ocorreu um erro: "
       ++ Casos.str_exc
            (FileNotFoundError (msg_arquivos "nutrientes.csv" "ingrediente.csv"))
       ++ nl ++ msg_critico ++ nl /\
  forallb (fun e => negb (is_read e))
          (snd (principal Casos.str_exc Exemplo.bib Exemplo.fs_vazio)) = true.
Proof.
  apply (principal_sem_arquivo Casos.str_exc Exemplo.bib Exemplo.fs_vazio).
  left; reflexivity.
Defined.

(** X16.  An answer of the solver that is not a success is a result and
    not an error: when the tables load and formulate, the program prints
    the message for the solver's status alone, without the error text and
    its hint. *)
Theorem principal_sem_otimo (str_exc : exn -> string) (bib : Bibliotecas)
    (fs : sistema_de_arquivos) (dados_nutrientes dados_alimentos : DataFrame)
    (t : list evento) (lp : LP) (nomes_nutrientes nomes_alimentos : list cell)
    (r : OptimizeResult) :
  carregar_dados_csv bib fs "nutrientes.csv" "ingrediente.csv" []
    = (Ok (dados_nutrientes, dados_alimentos), t) ->
  formular dados_nutrientes dados_alimentos
    = Ok (lp, nomes_nutrientes, nomes_alimentos) ->
  linprog bib (lp_c lp) (lp_A_ub lp) (lp_b_ub lp) = Ok r ->
  success r = false ->
  principal str_exc bib fs
  = ((if Z.eqb (status r) 2 then msg_inviavel else msg_sem_otimo r) ++ nl, t).
Proof.
  intros Hc Hf Hl Hs. unfold principal. rewrite Hc.
  unfold resolver_problema_dieta_scipy. rewrite Hf; cbn [bind].
  rewrite Hl; cbn [bind]. unfold relatar. rewrite Hs.
  destruct (Z.eqb (status r) 2); reflexivity.
Qed.

Lemma principal_sem_otimo_witness :
  principal Casos.str_exc (Exemplo.bib_com Exemplo.inviavel)
            (Exemplo.fs_com Exemplo.alimentos_lidos)
  = ((if Z.eqb (status Exemplo.inviavel) 2
      then msg_inviavel else msg_sem_otimo Exemplo.inviavel) ++ nl,
     [EvExists "nutrientes.csv"; EvExists "ingrediente.csv";
      EvReadCsv "nutrientes.csv" utf_8; EvReadCsv "ingrediente.csv" utf_8]).
Proof.
  apply (principal_sem_otimo Casos.str_exc (Exemplo.bib_com Exemplo.inviavel)
           (Exemplo.fs_com Exemplo.alimentos_lidos)
           Exemplo.nutrientes Exemplo.alimentos _ Exemplo.lp
           [CStr "Protein"] [CStr "Rice"; CStr "Beans"] Exemplo.inviavel).
  - vm_compute; reflexivity.
  - vm_compute; reflexivity.
  - reflexivity.
  - reflexivity.
Defined.

(** * The loader and the formulation together *)

Lemma carregar_Ok_inv (bib : Bibliotecas) (fs : sistema_de_arquivos)
      (nome_nutrientes nome_alimentos : string) (t0 t : list evento)
      (dados_nutrientes dados_alimentos : DataFrame) :
  carregar_dados_csv bib fs nome_nutrientes nome_alimentos t0
    = (Ok (dados_nutrientes, dados_alimentos), t) ->
  exists lido, tratar_alimentos bib lido = Ok dados_alimentos.
Proof.
  unfold carregar_dados_csv, falta_arquivo, ler_alimentos, try_except, bindIO,
    os_path_exists, read_csv, raise, ret, lift.
  destruct (fs nome_nutrientes) as [fn|]; cbn [negb]; [|discriminate].
  destruct (fs nome_alimentos) as [fa|]; cbn [negb]; [|discriminate].
  destruct (lido_utf_8 fn) as [nut|]; [|discriminate].
  destruct (lido_utf_8 fa) as [lido|].
  - destruct (tratar_alimentos bib lido) as [a|] eqn:E; [|discriminate].
    intros H; inversion H; subst; eauto.
  - destruct (lido_latin1 fa) as [lido|]; [|discriminate].
    destruct (tratar_alimentos bib lido) as [a|] eqn:E; [|discriminate].
    intros H; inversion H; subst; eauto.
Qed.

Lemma in_list_find_col (df : DataFrame) (k : string) :
  in_list k (columns df) = true -> exists s, find_col k (cols df) = Some s.
Proof.
  unfold in_list, columns. induction (cols df) as [|[n s] cs IH]; simpl;
    [discriminate|].
  rewrite String.eqb_sym.
  destruct (String.eqb n k); [eauto|exact IH].
Qed.

Lemma tratar_alimentos_numericas (bib : Bibliotecas) (lido dados_alimentos : DataFrame)
      (k : string) (s : list cell) :
  tratar_alimentos bib lido = Ok dados_alimentos ->
  find_col k (cols dados_alimentos) = Some s ->
  in_list k colunas_chave = false ->
  numerica s = true.
Proof.
  intros H Hf Hk.
  destruct (tratar_alimentos_Ok _ _ _ H) as (_ & _ & _ & HF & _).
  apply find_col_In in Hf.
  clear H. induction HF as [|[k0 s0] c l l' Hc HF IH]; [contradiction|].
  destruct Hf as [->|Hin]; [|auto].
  cbn [fst snd] in Hc.
  destruct (converter_coluna_Ok _ _ _ _ Hc) as [Hfst Hsnd].
  cbn [fst snd] in Hfst, Hsnd. unfold a_converter in Hsnd; cbn [fst] in Hsnd.
  rewrite <- Hfst, Hk in Hsnd. cbn [negb] in Hsnd. apply Hsnd.
Qed.

(** X17.  The tables the loader returns can be formulated whenever no
    label occurs twice in either of them, the nutrient table has its two
    columns with numeric minimums, the food table has a column [preco],
    and every nutrient name is the label of a food column other than
    [ingrediente] and [quantidade]: the loader has made those columns
    numeric, so no negation can fail. *)
Theorem carregar_entao_formular (bib : Bibliotecas) (fs : sistema_de_arquivos)
    (nome_nutrientes nome_alimentos : string) (t : list evento)
    (dados_nutrientes dados_alimentos : DataFrame)
    (nomes_nutrientes minimos : list cell) :
  carregar_dados_csv bib fs nome_nutrientes nome_alimentos []
    = (Ok (dados_nutrientes, dados_alimentos), t) ->
  sem_repetidos (columns dados_nutrientes) = true ->
  sem_repetidos (columns dados_alimentos) = true ->
  getitem dados_nutrientes "nutrientes" = Ok nomes_nutrientes ->
  getitem dados_nutrientes "minimo" = Ok minimos ->
  numerica minimos = true ->
  in_list "preco" (columns dados_alimentos) = true ->
  (forall nome, In nome nomes_nutrientes ->
     exists k, nome = CStr k /\
               in_list k (columns dados_alimentos) = true /\
               in_list k colunas_chave = false) ->
  exists lp nomes_alimentos,
    formular dados_nutrientes dados_alimentos
      = Ok (lp, nomes_nutrientes, nomes_alimentos) /\
    getitem dados_alimentos "ingrediente" = Ok nomes_alimentos.
Proof.
  intros Hc _ _ Hnn Hm Hnum Hpreco Hnomes.
  destruct (carregar_Ok_inv _ _ _ _ _ _ _ _ Hc) as [lido Hl].
  destruct (tratar_alimentos_Ok _ _ _ Hl) as (_ & Hi & _ & _ & _).
  destruct (in_list_find_col _ _ Hpreco) as [c Hfc].
  destruct (in_list_find_col _ _ Hi) as [na Hfa].
  assert (Hcols : forallb (coluna_numerica dados_alimentos) nomes_nutrientes = true).
  { apply forallb_forall; intros nome Hin.
    destruct (Hnomes _ Hin) as (k & -> & Hk & Hkey).
    destruct (in_list_find_col _ _ Hk) as [s Hs].
    unfold coluna_numerica, find_label; cbn [label_text]. rewrite Hs.
    exact (tratar_alimentos_numericas _ _ _ _ _ Hl Hs Hkey). }
  destruct (neg_vector_total _ Hnum) as [b Hb].
  destruct (find_label_selecionadas_numerica _ _ Hcols) as [Hpres Hsel].
  destruct (neg_array_total (nrows dados_alimentos) _ Hsel) as [A HA].
  exists (mkLP c A b), na. split; [|apply getitem_find; assumption].
  unfold formular.
  rewrite (getitem_find _ _ _ Hfc), Hnn, (getitem_find _ _ _ Hfa), Hm; cbn [bind].
  rewrite Hb; cbn [bind].
  rewrite (getitem_list_total _ _ Hpres); cbn [bind].
  rewrite HA; reflexivity.
Qed.

Lemma carregar_entao_formular_witness :
  exists lp nomes_alimentos,
    formular Exemplo.nutrientes Exemplo.alimentos
      = Ok (lp, [CStr "Protein"], nomes_alimentos) /\
    getitem Exemplo.alimentos "ingrediente" = Ok nomes_alimentos.
Proof.
  apply (carregar_entao_formular Exemplo.bib (Exemplo.fs_com Exemplo.alimentos_lidos)
           "nutrientes.csv" "ingrediente.csv"
           [EvExists "nutrientes.csv"; EvExists "ingrediente.csv";
            EvReadCsv "nutrientes.csv" utf_8; EvReadCsv "ingrediente.csv" utf_8]
           Exemplo.nutrientes Exemplo.alimentos [CStr "Protein"] [CNum 50%float]).
  - vm_compute; reflexivity.
  - reflexivity.
  - reflexivity.
  - reflexivity.
  - reflexivity.
  - reflexivity.
  - reflexivity.
  - intros nome [<-|[]]. exists "Protein". repeat split; reflexivity.
Defined.

(** A header with a no-break space after [quantidade] and an ideographic
    space before [preco] is accepted: both labels are stripped. *)
Example carregar_rotulos_unicode :
  fst (carregar_dados_csv Exemplo.bib
         (Exemplo.fs_com Casos.alimentos_nbsp) "nutrientes.csv" "ingrediente.csv" [])
  = Ok (Exemplo.nutrientes, Exemplo.alimentos).
Proof. vm_compute; reflexivity. Qed.
